(** * gopacket: endpoints, flows and ICMPv6 neighbour-discovery options

    A shallow embedding of [flows.go] (package gopacket) and of the option
    decoder of [layers/icmp6msg.go], with the properties of their
    specification stated and settled against the embedded code.

    Conventions of the embedding:
    - a Go [byte]/[uint8] is a [Byte.byte]; [u8] gives its value in [0, 255];
    - a Go [int], [int64] or [uint64] is a [Z]; the 64-bit wrap-around of
      [uint64] arithmetic is written out ([wrap64]);
    - a Go array [[16]byte] and a Go slice [[]byte] are both [list byte]; a
      slice is modelled with capacity equal to its length;
    - a call that can panic or return a non-nil [error] yields an [outcome]. *)

From Stdlib Require Import ZArith Lia Bool String.
From Stdlib Require Import Strings.Byte.
From stdpp Require Import base list gmap.

Local Open Scope Z_scope.

(** ** Go runtime: outcomes, bytes, indexing, slicing *)

(** Go's [error] values produced by the embedded functions. *)
Inductive error : Type :=
| ErrMismatchedEndpointTypes (s d : Z)
    (* fmt.Errorf("Mismatched endpoint types: %v->%v", src.typ, dst.typ) *)
| ErrICMPv6OptionHeader
    (* errors.New("ICMP layer less then 2 bytes for ICMPv6 message option") *)
| ErrICMPv6OptionLength (have need : Z).
    (* fmt.Errorf("ICMP layer only %v bytes for ICMPv6 message option with length %v", ...) *)

(** What a call does: return normally, return a non-nil [error], or panic. *)
Inductive outcome (A : Type) : Type :=
| Returned (a : A)
| Failed (e : error)
| Panicked (msg : string).

Arguments Returned {A} a.
Arguments Failed {A} e.
Arguments Panicked {A} msg.

Definition bind {A B : Type} (m : outcome A) (k : A -> outcome B) : outcome B :=
  match m with
  | Returned a => k a
  | Failed e => Failed e
  | Panicked msg => Panicked msg
  end.

Notation "'let!' x ':=' m 'in' k" := (bind m (fun x => k))
  (at level 10, x name, m at level 100, k at level 200).

Definition u8 (b : byte) : Z := Z.of_N (Byte.to_N b).

Definition wrap64 (x : Z) : Z := x mod 2 ^ 64.

(** [x << s] on [uint64]. *)
Definition shl64 (x s : Z) : Z := wrap64 (Z.shiftl x s).

(** [x + y] on [uint64]. *)
Definition add64 (x y : Z) : Z := wrap64 (x + y).

(** [len(s)] *)
Definition len (s : list byte) : Z := Z.of_nat (length s).

(** [s[i]]: a run-time panic when [i] is out of range. *)
Definition index (s : list byte) (i : Z) : outcome byte :=
  if (0 <=? i) && (i <? len s) then
    match s !! Z.to_nat i with
    | Some b => Returned b
    | None => Panicked "index out of range"%string
    end
  else Panicked "index out of range"%string.

(** [s[lo:hi]]: a run-time panic unless [0 <= lo <= hi <= len(s)]. *)
Definition slice (s : list byte) (lo hi : Z) : outcome (list byte) :=
  if (0 <=? lo) && (lo <=? hi) && (hi <=? len s) then
    Returned (take (Z.to_nat (hi - lo)) (drop (Z.to_nat lo) s))
  else Panicked "slice bounds out of range"%string.

(** [copy(dst, src)]: the first [min(len(dst), len(src))] elements of [src]
    overwrite those of [dst]. *)
Definition copy (dst src : list byte) : list byte :=
  let n := Nat.min (length dst) (length src) in
  take n src ++ drop n dst.

(** [bytes.Compare] of the Go standard library: lexicographic comparison of
    two byte slices, [-1], [0] or [+1]. *)
Fixpoint bytes_Compare (a b : list byte) : Z :=
  match a, b with
  | [], [] => 0
  | [], _ :: _ => -1
  | _ :: _, [] => 1
  | x :: a', y :: b' =>
      if u8 x <? u8 y then -1
      else if u8 y <? u8 x then 1
      else bytes_Compare a' b'
  end.

(** ** flows.go *)

Definition MaxEndpointSize : Z := 16.

(** [type EndpointType int64] *)
Definition EndpointType : Type := Z.

(** The zero value of [[MaxEndpointSize]byte]. *)
Definition zero_array : list byte := replicate (Z.to_nat MaxEndpointSize) x00.

Module Endpoint.

Record t : Type := Build
  { typ : EndpointType;
    len : Z;
    raw : list byte }.

(** The values the package can build: a 16-byte array and a length that
    fits it. *)
Definition wf (a : t) : Prop :=
  length (raw a) = Z.to_nat MaxEndpointSize /\ 0 <= len a <= MaxEndpointSize.

(** [func (a Endpoint) EndpointType() EndpointType] *)
Definition EndpointType (a : t) : EndpointType := typ a.

(** [func (a Endpoint) Raw() []byte { return a.raw[:a.len] }] *)
Definition Raw (a : t) : outcome (list byte) := slice (raw a) 0 (len a).

(** [func (a Endpoint) LessThan(b Endpoint) bool]; [||] and [&&] evaluate
    their right operand only when needed. *)
Definition LessThan (a b : t) : outcome bool :=
  if typ a <? typ b then Returned true
  else if typ a =? typ b then
    let! x := slice (raw a) 0 (len a) in
    let! y := slice (raw b) 0 (len b) in
    Returned (bytes_Compare x y <? 0)
  else Returned false.

(** The loop of [FastHash]: [n] iterations left, counter [i],
    accumulator [h]. *)
Fixpoint FastHash_loop (a : t) (n : nat) (i h : Z) : outcome Z :=
  match n with
  | O => Returned h
  | S n' =>
      let! b := index (raw a) i in
      FastHash_loop a n' (i + 1) (Z.lxor h (shl64 (u8 b) (8 * (i mod 8))))
  end.

(** [func (a Endpoint) FastHash() (h uint64)] *)
Definition FastHash (a : t) : outcome Z :=
  FastHash_loop a (Z.to_nat (len a)) 0 0.

End Endpoint.

(** [func NewEndpoint(typ EndpointType, raw []byte) (e Endpoint)] *)
Definition NewEndpoint (typ : EndpointType) (raw : list byte) : outcome Endpoint.t :=
  let e_len := len raw in
  if e_len >? MaxEndpointSize then
    Panicked "raw byte length greater than MaxEndpointSize"%string
  else
    Returned (Endpoint.Build typ e_len (copy zero_array raw)).

Module Flow.

Record t : Type := Build
  { typ : EndpointType;
    slen : Z;
    dlen : Z;
    src : list byte;
    dst : list byte }.

Definition wf (f : t) : Prop :=
  length (src f) = Z.to_nat MaxEndpointSize /\
  length (dst f) = Z.to_nat MaxEndpointSize /\
  0 <= slen f <= MaxEndpointSize /\ 0 <= dlen f <= MaxEndpointSize.

(** The loop of [FastHash]: both accumulators read at [f.slen-1-i]. *)
Fixpoint FastHash_loop (f : t) (n : nat) (i a b : Z) : outcome (Z * Z) :=
  match n with
  | O => Returned (a, b)
  | S n' =>
      let! s := index (src f) (slen f - 1 - i) in
      let! d := index (dst f) (slen f - 1 - i) in
      FastHash_loop f n' (i + 1)
        (Z.lxor a (shl64 (u8 s) (16 * (i mod 4))))
        (Z.lxor b (shl64 (u8 d) (16 * (i mod 4))))
  end.

(** [func (f Flow) FastHash() (a uint64)] *)
Definition FastHash (f : t) : outcome Z :=
  let! ab := FastHash_loop f (Z.to_nat (slen f)) 0 0 0 in
  let '(a, b) := ab in
  if a >? b then Returned (add64 a (shl64 b 8))
  else Returned (add64 b (shl64 a 8)).

(** [func (f Flow) EndpointType() EndpointType] *)
Definition EndpointType (f : t) : EndpointType := typ f.

(** [func (f Flow) Endpoints() (src, dst Endpoint)] *)
Definition Endpoints (f : t) : Endpoint.t * Endpoint.t :=
  (Endpoint.Build (typ f) (slen f) (src f),
   Endpoint.Build (typ f) (dlen f) (dst f)).

Definition Src (f : t) : Endpoint.t := fst (Endpoints f).

Definition Dst (f : t) : Endpoint.t := snd (Endpoints f).

(** [func (f Flow) Reverse() Flow] *)
Definition Reverse (f : t) : t :=
  Build (typ f) (dlen f) (slen f) (dst f) (src f).

End Flow.

(** [func FlowFromEndpoints(src, dst Endpoint) (_ Flow, err error)] *)
Definition FlowFromEndpoints (src dst : Endpoint.t) : outcome Flow.t :=
  if negb (Endpoint.typ src =? Endpoint.typ dst) then
    Failed (ErrMismatchedEndpointTypes (Endpoint.typ src) (Endpoint.typ dst))
  else
    Returned (Flow.Build (Endpoint.typ src) (Endpoint.len src) (Endpoint.len dst)
                (Endpoint.raw src) (Endpoint.raw dst)).

(** [func NewFlow(t EndpointType, src, dst []byte) (f Flow)] *)
Definition NewFlow (t : EndpointType) (src dst : list byte) : outcome Flow.t :=
  let f_slen := len src in
  let f_dlen := len dst in
  if (f_slen >? MaxEndpointSize) || (f_dlen >? MaxEndpointSize) then
    Panicked "flow raw byte length greater than MaxEndpointSize"%string
  else
    Returned (Flow.Build t f_slen f_dlen (copy zero_array src) (copy zero_array dst)).

(** [var EndpointInvalid = RegisterEndpointType(0, ...)] *)
Definition EndpointInvalid : EndpointType := 0.

(** [var InvalidEndpoint = NewEndpoint(EndpointInvalid, nil)] *)
Definition InvalidEndpoint : outcome Endpoint.t := NewEndpoint EndpointInvalid [].

(** [var InvalidFlow = NewFlow(EndpointInvalid, nil, nil)] *)
Definition InvalidFlow : outcome Flow.t := NewFlow EndpointInvalid [] [].

(** ** layers/icmp6msg.go *)

(** [gopacket.DecodeFeedback]: the decoder only ever calls [SetTruncated]. *)
Record DecodeFeedback : Type := { truncated : bool }.

Definition SetTruncated (df : DecodeFeedback) : DecodeFeedback :=
  {| truncated := true |}.

(** [type ICMPv6Opt uint8] *)
Definition ICMPv6Opt : Type := byte.

Record ICMPv6Option : Type := mkICMPv6Option
  { Type_ : ICMPv6Opt;
    Length : Z;            (* Length of option, in bytes *)
    Data : list byte }.

Definition ICMPv6Options : Type := list ICMPv6Option.

(** State in which a call leaves its receiver and its feedback, with what it
    returned. *)
Definition decoded : Type := outcome unit * ICMPv6Options * DecodeFeedback.

(** [func (i *ICMPv6Options) DecodeFromBytes(data []byte, df DecodeFeedback) error]:
    the loop [for len(data) > 0 { ... }], one iteration per unit of fuel;
    [None] when the fuel runs out before the loop ends. *)
Fixpoint DecodeFromBytes_loop (fuel : nat) (i : ICMPv6Options) (data : list byte)
    (df : DecodeFeedback) : option decoded :=
  match fuel with
  | O => None
  | S fuel' =>
      if len data >? 0 then
        if len data <? 2 then
          Some (Failed ErrICMPv6OptionHeader, i, SetTruncated df)
        else
          match index data 0, index data 1 with
          | Returned ty, Returned lb =>
              let o_Length := u8 lb * 8 in
              if len data <? o_Length then
                Some (Failed (ErrICMPv6OptionLength (len data) o_Length), i,
                      SetTruncated df)
              else
                match slice data 2 o_Length with
                | Returned o_Data =>
                    match slice data o_Length (len data) with
                    | Returned data' =>
                        DecodeFromBytes_loop fuel'
                          (i ++ [mkICMPv6Option ty o_Length o_Data]) data' df
                    | Failed e => Some (Failed e, i, df)
                    | Panicked msg => Some (Panicked msg, i, df)
                    end
                | Failed e => Some (Failed e, i, df)
                | Panicked msg => Some (Panicked msg, i, df)
                end
          | Panicked msg, _ | _, Panicked msg => Some (Panicked msg, i, df)
          | Failed e, _ | _, Failed e => Some (Failed e, i, df)
          end
      else Some (Returned tt, i, df)
  end.

(** Every iteration that goes on consumes at least one byte, so
    [len(data) + 1] units of fuel are never used up (see
    [DecodeFromBytes_loop_total]). *)
Definition DecodeFromBytes (i : ICMPv6Options) (data : list byte)
    (df : DecodeFeedback) : option decoded :=
  DecodeFromBytes_loop (S (length data)) i data df.

Record ICMPv6RouterAdvertisement : Type := mkICMPv6RouterAdvertisement
  { HopLimit : byte;
    Flags : byte;
    RouterLifetime : Z;
    ReachableTime : Z;
    RetransTimer : Z;
    Options : ICMPv6Options }.

(** [return i.Flags&0x80 != 1] *)
Definition ManagedAddressConfig (i : ICMPv6RouterAdvertisement) : bool :=
  negb (Z.land (u8 (Flags i)) 0x80 =? 1).

(** [return i.Flags&0x40 != 1] *)
Definition OtherConfig (i : ICMPv6RouterAdvertisement) : bool :=
  negb (Z.land (u8 (Flags i)) 0x40 =? 1).

(** ** Quantities the statements below speak of *)

(** Bytes taken from the buffer by a sequence of decoded options: the sum of
    their [Length] fields. *)
Definition total_Length (os : ICMPv6Options) : Z :=
  foldr (fun o acc => Length o + acc) 0 os.

(** What one decoded option looks like: a length of one to 255 units of 8
    bytes, and data filling it after the 2-byte header. *)
Definition option_within_bounds (o : ICMPv6Option) : Prop :=
  8 <= Length o <= 2040 /\ Length o mod 8 = 0 /\ len (Data o) = Length o - 2.

(** Lexicographic order on byte strings, as the specification words it: a
    proper prefix comes first, otherwise the first differing byte decides. *)
Inductive lex_lt : list byte -> list byte -> Prop :=
| lex_lt_nil (y : byte) (ys : list byte) : lex_lt [] (y :: ys)
| lex_lt_head (x y : byte) (xs ys : list byte) :
    u8 x < u8 y -> lex_lt (x :: xs) (y :: ys)
| lex_lt_tail (x : byte) (xs ys : list byte) :
    lex_lt xs ys -> lex_lt (x :: xs) (x :: ys).

(** [a.LessThan(b)] holds. *)
Definition Endpoint_lt (a b : Endpoint.t) : Prop :=
  Endpoint.LessThan a b = Returned true.

(** Equality of endpoints: same type and same meaningful raw bytes. *)
Definition Endpoint_same (a b : Endpoint.t) : Prop :=
  Endpoint.typ a = Endpoint.typ b /\ Endpoint.Raw a = Endpoint.Raw b.

(** The endpoint hash as the specification words it: byte [i] of the address
    is XOR-ed into lane [i mod 8] of the accumulator,
    [acc ^= byte << (8 * lane)]. *)
Fixpoint xor_lanes (i : Z) (raw : list byte) (acc : Z) : Z :=
  match raw with
  | [] => acc
  | b :: raw' => xor_lanes (i + 1) raw' (Z.lxor acc (Z.shiftl (u8 b) (8 * (i mod 8))))
  end.

Definition spec_fast_hash (raw : list byte) : Z := xor_lanes 0 raw 0.

(** The number a byte string spells, least significant byte first. *)
Fixpoint le_value (raw : list byte) : Z :=
  match raw with
  | [] => 0
  | b :: raw' => u8 b + 256 * le_value raw'
  end.

(** ** flows.go: the registry of endpoint types *)

(** [type EndpointTypeMetadata struct]; a nil [Formatter] is [None]. *)
Record EndpointTypeMetadata : Type := mkEndpointTypeMetadata
  { Name : string;
    Formatter : option (list byte -> string) }.

(** [var endpointTypes = map[EndpointType]EndpointTypeMetadata{}]: the
    package-level map, passed in and handed back by the functions that use
    it. *)
Abbreviation registry := (gmap Z EndpointTypeMetadata).

(** [func RegisterEndpointType(num int, meta EndpointTypeMetadata) EndpointType] *)
Definition RegisterEndpointType (num : Z) (meta : EndpointTypeMetadata)
    (endpointTypes : registry) : outcome (EndpointType * registry) :=
  let t : EndpointType := num in
  match endpointTypes !! t with
  | Some _ => Panicked "Endpoint type number already in use"%string
  | None => Returned (t, <[t := meta]> endpointTypes)
  end.

Section Formatting.

(** [strconv.Itoa] and the rendering [fmt.Sprintf("%v:%v", a.typ, a.raw)],
    the latter given what [a.typ.String()] returns: both belong to the Go
    standard library and are left open. *)
Variable Itoa : Z -> string.
Variable Sprintf_typ_raw : string -> list byte -> string.

(** [func (e EndpointType) String() string] *)
Definition EndpointType_String (endpointTypes : registry) (e : EndpointType) : string :=
  match endpointTypes !! e with
  | Some t => Name t
  | None => Itoa e
  end.

(** [func (a Endpoint) String() string] *)
Definition Endpoint_String (endpointTypes : registry) (a : Endpoint.t) : outcome string :=
  match endpointTypes !! Endpoint.typ a with
  | Some {| Formatter := Some format |} =>
      let! r := slice (Endpoint.raw a) 0 (Endpoint.len a) in
      Returned (format r)
  | _ =>
      Returned (Sprintf_typ_raw (EndpointType_String endpointTypes (Endpoint.typ a))
                  (Endpoint.raw a))
  end.

End Formatting.

(** ** layers/icmp6msg.go: the five message layers

    The embedded [BaseLayer] is declared outside these files and nothing
    here reads or writes it; the records hold the other fields. *)

(** [binary.BigEndian.Uint16] of the Go standard library:
    [_ = b[1]; return uint16(b[1]) | uint16(b[0])<<8]. *)
Definition BigEndian_Uint16 (b : list byte) : outcome Z :=
  let! _ := index b 1 in
  let! b1 := index b 1 in
  let! b0 := index b 0 in
  Returned (Z.lor (u8 b1) (Z.shiftl (u8 b0) 8)).

(** [binary.BigEndian.Uint32] of the Go standard library. *)
Definition BigEndian_Uint32 (b : list byte) : outcome Z :=
  let! _ := index b 3 in
  let! b3 := index b 3 in
  let! b2 := index b 2 in
  let! b1 := index b 1 in
  let! b0 := index b 0 in
  Returned (Z.lor (Z.lor (Z.lor (u8 b3) (Z.shiftl (u8 b2) 8)) (Z.shiftl (u8 b1) 16))
              (Z.shiftl (u8 b0) 24)).

(** What a layer's [DecodeFromBytes] comes back with: [nil], the error of
    its own length check ([errors.New(msg)]), the error of the option
    decoder, or a panic. *)
Inductive layer_result : Type :=
| LayerDecoded
| LayerTooShort (msg : string)
| LayerOptionsFailed (e : error)
| LayerPanicked (msg : string).

Definition layer_result_of (r : outcome unit) : layer_result :=
  match r with
  | Returned _ => LayerDecoded
  | Failed e => LayerOptionsFailed e
  | Panicked msg => LayerPanicked msg
  end.

(** Evaluate an expression that may panic, in the state [i] reached so far. *)
Definition evaluate {A L : Type} (m : outcome A) (i : L) (df : DecodeFeedback)
    (k : A -> option (layer_result * L * DecodeFeedback))
    : option (layer_result * L * DecodeFeedback) :=
  match m with
  | Returned a => k a
  | Failed e => Some (LayerOptionsFailed e, i, df)
  | Panicked msg => Some (LayerPanicked msg, i, df)
  end.

(** [return i.Options.DecodeFromBytes(data, df)], the receiver being the
    field [Options] of a layer: [store] puts the options back. *)
Definition decode_Options {L : Type} (store : ICMPv6Options -> L)
    (options : ICMPv6Options) (data : list byte) (df : DecodeFeedback)
    : option (layer_result * L * DecodeFeedback) :=
  match DecodeFromBytes options data df with
  | Some (r, options', df') => Some (layer_result_of r, store options', df')
  | None => None
  end.

Record ICMPv6RouterSolicitation : Type := mkICMPv6RouterSolicitation
  { RS_Options : ICMPv6Options }.

Record ICMPv6NeighborSolicitation : Type := mkICMPv6NeighborSolicitation
  { NS_TargetAddress : list byte;
    NS_Options : ICMPv6Options }.

Record ICMPv6NeighborAdvertisement : Type := mkICMPv6NeighborAdvertisement
  { NA_Flags : byte;
    NA_TargetAddress : list byte;
    NA_Options : ICMPv6Options }.

Record ICMPv6Redirect : Type := mkICMPv6Redirect
  { RD_TargetAddress : list byte;
    RD_DestinationAddress : list byte;
    RD_Options : ICMPv6Options }.

(** [func (i *ICMPv6RouterSolicitation) DecodeFromBytes(data []byte, df DecodeFeedback) error] *)
Definition RouterSolicitation_DecodeFromBytes (i : ICMPv6RouterSolicitation)
    (data : list byte) (df : DecodeFeedback)
    : option (layer_result * ICMPv6RouterSolicitation * DecodeFeedback) :=
  if len data <? 4 then
    Some (LayerTooShort "ICMP layer less then 4 bytes for ICMPv6 router solicitation"%string,
          i, SetTruncated df)
  else
    let i1 := mkICMPv6RouterSolicitation (take 0 (RS_Options i)) in
    evaluate (slice data 4 (len data)) i1 df (fun rest =>
    decode_Options mkICMPv6RouterSolicitation (RS_Options i1) rest df).

(** [func (i *ICMPv6RouterAdvertisement) DecodeFromBytes(data []byte, df DecodeFeedback) error] *)
Definition RouterAdvertisement_DecodeFromBytes (i : ICMPv6RouterAdvertisement)
    (data : list byte) (df : DecodeFeedback)
    : option (layer_result * ICMPv6RouterAdvertisement * DecodeFeedback) :=
  if len data <? 12 then
    Some (LayerTooShort "ICMP layer less then 12 bytes for ICMPv6 router advertisement"%string,
          i, SetTruncated df)
  else
    evaluate (index data 0) i df (fun b0 =>
    let i1 := mkICMPv6RouterAdvertisement b0 (Flags i) (RouterLifetime i)
                (ReachableTime i) (RetransTimer i) (Options i) in
    evaluate (index data 1) i1 df (fun b1 =>
    let i2 := mkICMPv6RouterAdvertisement b0 b1 (RouterLifetime i)
                (ReachableTime i) (RetransTimer i) (Options i) in
    evaluate (let! s := slice data 2 4 in BigEndian_Uint16 s) i2 df (fun lifetime =>
    let i3 := mkICMPv6RouterAdvertisement b0 b1 lifetime
                (ReachableTime i) (RetransTimer i) (Options i) in
    evaluate (let! s := slice data 4 8 in BigEndian_Uint32 s) i3 df (fun reachable =>
    let i4 := mkICMPv6RouterAdvertisement b0 b1 lifetime reachable
                (RetransTimer i) (Options i) in
    evaluate (let! s := slice data 8 12 in BigEndian_Uint32 s) i4 df (fun retrans =>
    let i5 := mkICMPv6RouterAdvertisement b0 b1 lifetime reachable retrans
                (Options i) in
    let i6 := mkICMPv6RouterAdvertisement b0 b1 lifetime reachable retrans
                (take 0 (Options i5)) in
    evaluate (slice data 12 (len data)) i6 df (fun rest =>
    decode_Options (mkICMPv6RouterAdvertisement b0 b1 lifetime reachable retrans)
      (Options i6) rest df)))))).

(** [func (i *ICMPv6NeighborSolicitation) DecodeFromBytes(data []byte, df DecodeFeedback) error] *)
Definition NeighborSolicitation_DecodeFromBytes (i : ICMPv6NeighborSolicitation)
    (data : list byte) (df : DecodeFeedback)
    : option (layer_result * ICMPv6NeighborSolicitation * DecodeFeedback) :=
  if len data <? 20 then
    Some (LayerTooShort "ICMP layer less then 20 bytes for ICMPv6 neighbor solicitation"%string,
          i, SetTruncated df)
  else
    evaluate (slice data 4 20) i df (fun target =>
    let i1 := mkICMPv6NeighborSolicitation target (NS_Options i) in
    let i2 := mkICMPv6NeighborSolicitation target (take 0 (NS_Options i1)) in
    evaluate (slice data 20 (len data)) i2 df (fun rest =>
    decode_Options (mkICMPv6NeighborSolicitation target) (NS_Options i2) rest df)).

(** [func (i *ICMPv6NeighborAdvertisement) DecodeFromBytes(data []byte, df DecodeFeedback) error] *)
Definition NeighborAdvertisement_DecodeFromBytes (i : ICMPv6NeighborAdvertisement)
    (data : list byte) (df : DecodeFeedback)
    : option (layer_result * ICMPv6NeighborAdvertisement * DecodeFeedback) :=
  if len data <? 20 then
    Some (LayerTooShort "ICMP layer less then 20 bytes for ICMPv6 neighbor advertisement"%string,
          i, SetTruncated df)
  else
    evaluate (index data 0) i df (fun b0 =>
    let i1 := mkICMPv6NeighborAdvertisement b0 (NA_TargetAddress i) (NA_Options i) in
    evaluate (slice data 4 20) i1 df (fun target =>
    let i2 := mkICMPv6NeighborAdvertisement b0 target (NA_Options i) in
    let i3 := mkICMPv6NeighborAdvertisement b0 target (take 0 (NA_Options i2)) in
    evaluate (slice data 20 (len data)) i3 df (fun rest =>
    decode_Options (mkICMPv6NeighborAdvertisement b0 target) (NA_Options i3) rest df))).

(** [func (i *ICMPv6Redirect) DecodeFromBytes(data []byte, df DecodeFeedback) error] *)
Definition Redirect_DecodeFromBytes (i : ICMPv6Redirect)
    (data : list byte) (df : DecodeFeedback)
    : option (layer_result * ICMPv6Redirect * DecodeFeedback) :=
  if len data <? 36 then
    Some (LayerTooShort "ICMP layer less then 36 bytes for ICMPv6 redirect"%string,
          i, SetTruncated df)
  else
    evaluate (slice data 4 20) i df (fun target =>
    let i1 := mkICMPv6Redirect target (RD_DestinationAddress i) (RD_Options i) in
    evaluate (slice data 20 36) i1 df (fun destination =>
    let i2 := mkICMPv6Redirect target destination (RD_Options i) in
    let i3 := mkICMPv6Redirect target destination (take 0 (RD_Options i2)) in
    evaluate (slice data 36 (len data)) i3 df (fun rest =>
    decode_Options (mkICMPv6Redirect target destination) (RD_Options i3) rest df))).

(** [return i.Flags&0x80 != 0] *)
Definition Router (i : ICMPv6NeighborAdvertisement) : bool :=
  negb (Z.land (u8 (NA_Flags i)) 0x80 =? 0).

(** [return i.Flags&0x40 != 0] *)
Definition Solicited (i : ICMPv6NeighborAdvertisement) : bool :=
  negb (Z.land (u8 (NA_Flags i)) 0x40 =? 0).

(** [return i.Flags&0x20 != 0] *)
Definition Override (i : ICMPv6NeighborAdvertisement) : bool :=
  negb (Z.land (u8 (NA_Flags i)) 0x20 =? 0).

(** ** Wire form of an option block, for the statements about decoding *)

(** The length byte of an option: its length in units of 8 bytes. *)
Definition length_byte (o : ICMPv6Option) : byte :=
  match Byte.of_N (Z.to_N (Length o / 8)) with
  | Some b => b
  | None => x00
  end.

(** Type byte, length byte, data. *)
Definition option_bytes (o : ICMPv6Option) : list byte :=
  Type_ o :: length_byte o :: Data o.

Definition options_bytes (os : ICMPv6Options) : list byte :=
  flat_map option_bytes os.

(** The number a byte string spells in 16-bit lanes, low lane first: the
    lanes of [Flow.FastHash]. *)
Fixpoint lane16_value (raw : list byte) : Z :=
  match raw with
  | [] => 0
  | b :: raw' => u8 b + 65536 * lane16_value raw'
  end.

(** One accumulator of [Flow.FastHash]: byte [i] of the sequence read goes
    into the 16-bit lane [i mod 4], [acc ^= byte << (16 * lane)]. *)
Fixpoint xor_lanes16 (i : Z) (raw : list byte) (acc : Z) : Z :=
  match raw with
  | [] => acc
  | b :: raw' => xor_lanes16 (i + 1) raw' (Z.lxor acc (Z.shiftl (u8 b) (16 * (i mod 4))))
  end.

(** The bytes an accumulator of [Flow.FastHash] reads from a buffer, in the
    order it reads them: the first [slen] bytes, last one first. *)
Definition hashed_bytes (slen : Z) (buf : list byte) : list byte :=
  reverse (take (Z.to_nat slen) buf).

(** The layer's [DecodeFromBytes] returned a non-nil [error]. *)
Definition is_error (r : layer_result) : bool :=
  match r with
  | LayerTooShort _ | LayerOptionsFailed _ => true
  | LayerDecoded | LayerPanicked _ => false
  end.

(** * Properties *)

(** ** Run-time helpers *)

Lemma u8_range (b : byte) : 0 <= u8 b <= 255.
Proof.
  unfold u8. pose proof (Byte.to_N_bounded b) as Hb.
  split; [apply N2Z.is_nonneg | ].
  change 255 with (Z.of_N 255). apply N2Z.inj_le. exact Hb.
Qed.

Lemma u8_inj (x y : byte) : u8 x = u8 y -> x = y.
Proof.
  unfold u8. intros H. apply N2Z.inj in H.
  pose proof (Byte.of_to_N x) as Hx. pose proof (Byte.of_to_N y) as Hy.
  rewrite H in Hx. congruence.
Qed.

Lemma len_nonneg (s : list byte) : 0 <= len s.
Proof. unfold len. lia. Qed.

Lemma len_cons (b : byte) (s : list byte) : len (b :: s) = len s + 1.
Proof. unfold len. simpl length. lia. Qed.

Lemma slice_inv (s : list byte) (lo hi : Z) (r : list byte) :
  slice s lo hi = Returned r ->
  0 <= lo /\ lo <= hi /\ hi <= len s /\
  r = take (Z.to_nat (hi - lo)) (drop (Z.to_nat lo) s).
Proof.
  unfold slice.
  destruct (0 <=? lo) eqn:H0; destruct (lo <=? hi) eqn:H1;
    destruct (hi <=? len s) eqn:H2; simpl; intros H; try discriminate.
  inversion H. repeat split; lia.
Qed.

Lemma slice_ok (s : list byte) (lo hi : Z) :
  0 <= lo -> lo <= hi -> hi <= len s ->
  slice s lo hi = Returned (take (Z.to_nat (hi - lo)) (drop (Z.to_nat lo) s)).
Proof.
  intros H0 H1 H2. unfold slice.
  destruct (0 <=? lo) eqn:E0; [ | lia].
  destruct (lo <=? hi) eqn:E1; [ | lia].
  destruct (hi <=? len s) eqn:E2; [ | lia].
  reflexivity.
Qed.

Lemma slice_panics (s : list byte) (lo hi : Z) :
  lo < 0 \/ hi < lo \/ len s < hi ->
  slice s lo hi = Panicked "slice bounds out of range"%string.
Proof.
  intros H. unfold slice.
  destruct (0 <=? lo) eqn:E0; destruct (lo <=? hi) eqn:E1;
    destruct (hi <=? len s) eqn:E2; simpl; try reflexivity; lia.
Qed.

Lemma slice_prefix (s : list byte) (n : Z) :
  0 <= n <= len s -> slice s 0 n = Returned (take (Z.to_nat n) s).
Proof.
  intros H. rewrite slice_ok by lia.
  rewrite Z.sub_0_r. reflexivity.
Qed.

Lemma slice_suffix (s : list byte) (n : Z) :
  0 <= n <= len s -> slice s n (len s) = Returned (drop (Z.to_nat n) s).
Proof.
  intros H. rewrite slice_ok by lia. f_equal.
  apply take_ge. rewrite length_drop. unfold len. lia.
Qed.

Lemma index_ok (s : list byte) (i : Z) (b : byte) :
  0 <= i -> s !! Z.to_nat i = Some b -> index s i = Returned b.
Proof.
  intros Hi Hb. unfold index.
  apply lookup_lt_Some in Hb as Hlt.
  destruct (0 <=? i) eqn:E0; [ | lia].
  destruct (i <? len s) eqn:E1; [ | unfold len in E1; lia].
  simpl. rewrite Hb. reflexivity.
Qed.

Lemma copy_zero_array (raw : list byte) :
  len raw <= MaxEndpointSize ->
  copy zero_array raw = raw ++ replicate (Z.to_nat MaxEndpointSize - length raw) x00.
Proof.
  unfold len, copy, zero_array, MaxEndpointSize. intros H.
  rewrite length_replicate.
  replace (Nat.min (Z.to_nat 16) (length raw)) with (length raw) by lia.
  rewrite take_ge by lia. f_equal.
  rewrite drop_replicate. reflexivity.
Qed.

Lemma length_copy_zero_array (raw : list byte) :
  len raw <= MaxEndpointSize ->
  length (copy zero_array raw) = Z.to_nat MaxEndpointSize.
Proof.
  intros H. rewrite copy_zero_array by exact H.
  rewrite length_app, length_replicate.
  unfold len, MaxEndpointSize in *. lia.
Qed.

Lemma NewEndpoint_wf (typ : EndpointType) (raw : list byte) (e : Endpoint.t) :
  NewEndpoint typ raw = Returned e -> Endpoint.wf e.
Proof.
  unfold NewEndpoint. destruct (len raw >? MaxEndpointSize) eqn:E; [discriminate | ].
  intros H. inversion H; subst; clear H. unfold Endpoint.wf. simpl.
  split; [apply length_copy_zero_array; lia | ].
  pose proof (len_nonneg raw). lia.
Qed.

Lemma NewFlow_wf (t : EndpointType) (src dst : list byte) (f : Flow.t) :
  NewFlow t src dst = Returned f -> Flow.wf f.
Proof.
  unfold NewFlow.
  destruct (len src >? MaxEndpointSize) eqn:Es;
    destruct (len dst >? MaxEndpointSize) eqn:Ed; simpl; try discriminate.
  intros H. inversion H; subst; clear H. unfold Flow.wf. simpl.
  pose proof (len_nonneg src). pose proof (len_nonneg dst).
  repeat split; try lia; apply length_copy_zero_array; lia.
Qed.

Lemma Endpoints_wf (f : Flow.t) :
  Flow.wf f -> Endpoint.wf (Flow.Src f) /\ Endpoint.wf (Flow.Dst f).
Proof.
  unfold Flow.wf, Endpoint.wf, Flow.Src, Flow.Dst. simpl. tauto.
Qed.

Lemma Reverse_wf (f : Flow.t) : Flow.wf f -> Flow.wf (Flow.Reverse f).
Proof. unfold Flow.wf. simpl. tauto. Qed.

(** ** Construction *)

(** C6. For every endpoint type and every raw byte slice of length at most
    16, [NewEndpoint] succeeds, and [Raw()] of the endpoint it builds returns
    exactly the original bytes. *)
Theorem NewEndpoint_Raw_roundtrip (typ : EndpointType) (raw : list byte) :
  len raw <= 16 ->
  exists e, NewEndpoint typ raw = Returned e /\
            Endpoint.EndpointType e = typ /\
            Endpoint.Raw e = Returned raw.
Proof.
  intros Hlen. unfold NewEndpoint.
  destruct (len raw >? MaxEndpointSize) eqn:E; [unfold MaxEndpointSize in E; lia | ].
  eexists. split; [reflexivity | ]. split; [reflexivity | ].
  unfold Endpoint.Raw. simpl.
  pose proof (len_nonneg raw) as Hn.
  assert (Hc : len (copy zero_array raw) = 16).
  { unfold len at 1. rewrite length_copy_zero_array by (unfold MaxEndpointSize; lia).
    reflexivity. }
  rewrite slice_prefix by lia.
  rewrite copy_zero_array by (unfold MaxEndpointSize; lia).
  unfold len. rewrite Nat2Z.id. rewrite take_app_length. reflexivity.
Qed.

Lemma NewEndpoint_Raw_roundtrip_witness :
  exists e, NewEndpoint 2 [x0a; x00; x00; x01] = Returned e /\
            Endpoint.EndpointType e = 2 /\
            Endpoint.Raw e = Returned [x0a; x00; x00; x01].
Proof. apply (NewEndpoint_Raw_roundtrip 2 [x0a; x00; x00; x01]). vm_compute. discriminate. Defined.

(** C5 (as the code has it). For every raw byte slice of length greater than
    16, [NewEndpoint] panics: it returns neither an endpoint nor an error,
    so no truncated address is ever built. *)
Theorem NewEndpoint_too_long_panics (typ : EndpointType) (raw : list byte) :
  len raw > 16 ->
  NewEndpoint typ raw = Panicked "raw byte length greater than MaxEndpointSize"%string.
Proof.
  intros Hlen. unfold NewEndpoint.
  destruct (len raw >? MaxEndpointSize) eqn:E; [reflexivity | ].
  unfold MaxEndpointSize in E. lia.
Qed.

Lemma NewEndpoint_too_long_panics_witness :
  NewEndpoint 1 (replicate 17 xff) =
  Panicked "raw byte length greater than MaxEndpointSize"%string.
Proof. apply (NewEndpoint_too_long_panics 1 (replicate 17 xff)). vm_compute. reflexivity. Defined.

(** C5, counterexample. On 17 bytes [NewEndpoint] returns no error value to
    its caller, whatever the error would be. *)
Lemma NewEndpoint_too_long_no_error :
  len (replicate 17 xff) > 16 /\
  forall e : error, NewEndpoint 1 (replicate 17 xff) <> Failed e.
Proof. split; [reflexivity | ]. intros e. vm_compute. discriminate. Qed.

(** C7. [FlowFromEndpoints a b] returns an error exactly when the endpoint
    types differ, and that error is the type mismatch; on equal types it
    returns a flow of the shared type whose source is [a] and whose
    destination is [b]. *)
Theorem FlowFromEndpoints_mismatch_iff (a b : Endpoint.t) :
  ((exists e, FlowFromEndpoints a b = Failed e) <-> Endpoint.typ a <> Endpoint.typ b) /\
  (Endpoint.typ a <> Endpoint.typ b ->
     FlowFromEndpoints a b =
     Failed (ErrMismatchedEndpointTypes (Endpoint.typ a) (Endpoint.typ b))) /\
  (Endpoint.typ a = Endpoint.typ b ->
     exists f, FlowFromEndpoints a b = Returned f /\
               Flow.EndpointType f = Endpoint.typ a /\
               Flow.EndpointType f = Endpoint.typ b /\
               Flow.Endpoints f = (a, b) /\
               Flow.slen f = Endpoint.len a /\ Flow.src f = Endpoint.raw a /\
               Flow.dlen f = Endpoint.len b /\ Flow.dst f = Endpoint.raw b).
Proof.
  unfold FlowFromEndpoints.
  destruct (Endpoint.typ a =? Endpoint.typ b) eqn:E; simpl.
  - apply Z.eqb_eq in E. split; [ | split].
    + split; [intros [e He]; discriminate | intros Hne; contradiction].
    + intros Hne. contradiction.
    + intros _. eexists. split; [reflexivity | ].
      unfold Flow.EndpointType, Flow.Endpoints. simpl.
      destruct a as [ta la ra], b as [tb lb rb]. simpl in *. subst tb.
      repeat split.
  - apply Z.eqb_neq in E. split; [ | split].
    + split; [intros _; exact E | intros _; eexists; reflexivity].
    + intros _. reflexivity.
    + intros Heq. contradiction.
Qed.

Lemma FlowFromEndpoints_mismatch_iff_witness :
  FlowFromEndpoints (Endpoint.Build 1 4 zero_array) (Endpoint.Build 2 2 zero_array) =
    Failed (ErrMismatchedEndpointTypes 1 2) /\
  exists f, FlowFromEndpoints (Endpoint.Build 1 4 zero_array) (Endpoint.Build 1 2 zero_array)
              = Returned f /\
            Flow.EndpointType f = 1 /\ Flow.EndpointType f = 1 /\
            Flow.Endpoints f = (Endpoint.Build 1 4 zero_array, Endpoint.Build 1 2 zero_array) /\
            Flow.slen f = 4 /\ Flow.src f = zero_array /\
            Flow.dlen f = 2 /\ Flow.dst f = zero_array.
Proof.
  split.
  - apply (proj1 (proj2 (FlowFromEndpoints_mismatch_iff
                           (Endpoint.Build 1 4 zero_array) (Endpoint.Build 2 2 zero_array)))).
    simpl. discriminate.
  - apply (proj2 (proj2 (FlowFromEndpoints_mismatch_iff
                           (Endpoint.Build 1 4 zero_array) (Endpoint.Build 1 2 zero_array)))).
    reflexivity.
Defined.

(** ** Reversal *)

(** C4. [Reverse] swaps the source and destination buffers together with
    their lengths, leaves the type unchanged, and undoes itself. *)
Theorem Reverse_involutive (f : Flow.t) :
  Flow.Reverse (Flow.Reverse f) = f /\
  Flow.typ (Flow.Reverse f) = Flow.typ f /\
  Flow.src (Flow.Reverse f) = Flow.dst f /\
  Flow.dst (Flow.Reverse f) = Flow.src f /\
  Flow.slen (Flow.Reverse f) = Flow.dlen f /\
  Flow.dlen (Flow.Reverse f) = Flow.slen f.
Proof. destruct f as [t sl dl s d]. repeat split. Qed.

(** ** Flow hashing *)

Lemma index_cases (s : list byte) (i : Z) :
  (exists b, index s i = Returned b) \/
  index s i = Panicked "index out of range"%string.
Proof.
  unfold index. destruct ((0 <=? i) && (i <? len s)); [ | right; reflexivity].
  destruct (s !! Z.to_nat i) as [b | ]; [left; eexists | right]; reflexivity.
Qed.

Lemma Flow_FastHash_loop_Reverse (f : Flow.t) (n : nat) (i a b : Z) :
  Flow.slen f = Flow.dlen f ->
  Flow.FastHash_loop (Flow.Reverse f) n i a b =
  (let! ab := Flow.FastHash_loop f n i b a in Returned (snd ab, fst ab)).
Proof.
  intros Hlen. revert i a b.
  induction n as [ | n IH]; intros i a b; simpl; [reflexivity | ].
  rewrite <- Hlen.
  destruct (index_cases (Flow.src f) (Flow.slen f - 1 - i)) as [[s Hs] | Hs];
    destruct (index_cases (Flow.dst f) (Flow.slen f - 1 - i)) as [[d Hd] | Hd];
    rewrite Hs, Hd; simpl; try reflexivity.
  apply IH.
Qed.

(** Both directions of a flow whose two addresses have the same length hash
    alike: the loop then reads every byte of both addresses, and the final
    combination does not depend on which accumulator is which. *)
Lemma Flow_FastHash_Reverse_same_length (f : Flow.t) :
  Flow.slen f = Flow.dlen f ->
  Flow.FastHash (Flow.Reverse f) = Flow.FastHash f.
Proof.
  intros Hlen. unfold Flow.FastHash.
  rewrite Flow_FastHash_loop_Reverse by exact Hlen.
  change (Flow.slen (Flow.Reverse f)) with (Flow.dlen f). rewrite <- Hlen.
  destruct (Flow.FastHash_loop f (Z.to_nat (Flow.slen f)) 0 0 0) as [[a b] | e | msg];
    simpl; try reflexivity.
  destruct (b >? a) eqn:Eba; destruct (a >? b) eqn:Eab; try reflexivity; try lia.
  assert (a = b) by lia. subst b. reflexivity.
Qed.

(** C1, at the failing input. The flow from the 2-byte address [01 02] to the
    1-byte address [03] hashes to [0x1030200]; its reverse hashes to [0x103]:
    the loop runs [slen] times and indexes both buffers by [slen]. *)
Theorem Flow_FastHash_Reverse_differs :
  exists f, NewFlow 1 [x01; x02] [x03] = Returned f /\
            Flow.FastHash f = Returned 0x1030200 /\
            Flow.FastHash (Flow.Reverse f) = Returned 0x103 /\
            Flow.FastHash f <> Flow.FastHash (Flow.Reverse f).
Proof.
  eexists. split; [reflexivity | ].
  split; [vm_compute; reflexivity | ].
  split; [vm_compute; reflexivity | ].
  vm_compute. discriminate.
Qed.

(** ** Router advertisement flags *)

Lemma land_never_one (b : byte) :
  (Z.land (u8 b) 0x80 =? 1) = false /\ (Z.land (u8 b) 0x40 =? 1) = false.
Proof. destruct b; split; reflexivity. Qed.

(** C10. Whatever the flags byte, [ManagedAddressConfig] and [OtherConfig]
    both return true, so neither depends on the M or O bit. *)
Theorem ManagedAddressConfig_OtherConfig_always_true
    (i : ICMPv6RouterAdvertisement) :
  ManagedAddressConfig i = true /\ OtherConfig i = true /\
  (forall j : ICMPv6RouterAdvertisement,
      ManagedAddressConfig i = ManagedAddressConfig j /\
      OtherConfig i = OtherConfig j).
Proof.
  assert (H : forall k, ManagedAddressConfig k = true /\ OtherConfig k = true).
  { intros k. unfold ManagedAddressConfig, OtherConfig.
    destruct (land_never_one (Flags k)) as [H1 H2]. rewrite H1, H2. split; reflexivity. }
  destruct (H i) as [Hm Ho]. split; [exact Hm | ]. split; [exact Ho | ].
  intros j. destruct (H j) as [Hm' Ho']. rewrite Hm, Ho, Hm', Ho'. split; reflexivity.
Qed.

(** ** ICMPv6 option decoding *)

Lemma DecodeFromBytes_loop_nil (fuel : nat) (i : ICMPv6Options) (df : DecodeFeedback) :
  DecodeFromBytes_loop (S fuel) i [] df = Some (Returned tt, i, df).
Proof. reflexivity. Qed.

Lemma DecodeFromBytes_loop_one (fuel : nat) (i : ICMPv6Options) (b : byte)
    (df : DecodeFeedback) :
  DecodeFromBytes_loop (S fuel) i [b] df =
  Some (Failed ErrICMPv6OptionHeader, i, SetTruncated df).
Proof. reflexivity. Qed.

(** One iteration on a buffer that holds an option header. *)
Lemma DecodeFromBytes_loop_header (fuel : nat) (i : ICMPv6Options) (ty lb : byte)
    (rest : list byte) (df : DecodeFeedback) :
  DecodeFromBytes_loop (S fuel) i (ty :: lb :: rest) df =
  if len (ty :: lb :: rest) <? u8 lb * 8 then
    Some (Failed (ErrICMPv6OptionLength (len (ty :: lb :: rest)) (u8 lb * 8)), i,
          SetTruncated df)
  else
    match slice (ty :: lb :: rest) 2 (u8 lb * 8) with
    | Returned o_Data =>
        DecodeFromBytes_loop fuel (i ++ [mkICMPv6Option ty (u8 lb * 8) o_Data])
          (drop (Z.to_nat (u8 lb * 8)) (ty :: lb :: rest)) df
    | Failed e => Some (Failed e, i, df)
    | Panicked msg => Some (Panicked msg, i, df)
    end.
Proof.
  set (data := ty :: lb :: rest).
  assert (Hlen : len data = len rest + 2) by (unfold data; rewrite !len_cons; lia).
  pose proof (len_nonneg rest) as Hrest.
  cbn [DecodeFromBytes_loop].
  destruct (len data >? 0) eqn:E0; [ | lia].
  destruct (len data <? 2) eqn:E2; [lia | ].
  rewrite (index_ok data 0 ty) by (reflexivity || lia).
  rewrite (index_ok data 1 lb) by (reflexivity || lia).
  destruct (len data <? u8 lb * 8) eqn:EL; [reflexivity | ].
  destruct (slice data 2 (u8 lb * 8)) as [o_Data | e | msg] eqn:Es; try reflexivity.
  apply slice_inv in Es as (_ & H2 & HL & _).
  rewrite slice_suffix by lia. reflexivity.
Qed.

(** The loop needs no more fuel than one unit per byte left, plus one. *)
Lemma DecodeFromBytes_loop_fuel (n m : nat) (i : ICMPv6Options) (data : list byte)
    (df : DecodeFeedback) :
  (length data < n)%nat -> (length data < m)%nat ->
  DecodeFromBytes_loop n i data df = DecodeFromBytes_loop m i data df.
Proof.
  revert m i data. induction n as [ | n IH]; intros m i data Hn Hm; [lia | ].
  destruct m as [ | m]; [lia | ].
  destruct data as [ | ty [ | lb rest]]; [reflexivity | reflexivity | ].
  rewrite !DecodeFromBytes_loop_header.
  destruct (len (ty :: lb :: rest) <? u8 lb * 8); [reflexivity | ].
  destruct (slice (ty :: lb :: rest) 2 (u8 lb * 8)) as [o_Data | e | msg] eqn:Es;
    try reflexivity.
  apply slice_inv in Es as (_ & H2 & HL & _).
  apply IH; rewrite length_drop; simpl length in *; lia.
Qed.

Lemma DecodeFromBytes_loop_total (n : nat) (i : ICMPv6Options) (data : list byte)
    (df : DecodeFeedback) :
  (length data < n)%nat -> exists r, DecodeFromBytes_loop n i data df = Some r.
Proof.
  revert i data. induction n as [ | n IH]; intros i data Hn; [lia | ].
  destruct data as [ | ty [ | lb rest]]; [eexists; reflexivity | eexists; reflexivity | ].
  rewrite DecodeFromBytes_loop_header.
  destruct (len (ty :: lb :: rest) <? u8 lb * 8); [eexists; reflexivity | ].
  destruct (slice (ty :: lb :: rest) 2 (u8 lb * 8)) as [o_Data | e | msg] eqn:Es;
    try (eexists; reflexivity).
  apply slice_inv in Es as (_ & H2 & HL & _).
  apply IH; rewrite length_drop; simpl length in *; lia.
Qed.

(** [DecodeFromBytes] always comes back with an outcome. *)
Lemma DecodeFromBytes_total (i : ICMPv6Options) (data : list byte) (df : DecodeFeedback) :
  exists r, DecodeFromBytes i data df = Some r.
Proof. apply DecodeFromBytes_loop_total. lia. Qed.

(** The loop, read as an equation on [DecodeFromBytes] itself. *)
Lemma DecodeFromBytes_header (i : ICMPv6Options) (ty lb : byte) (rest : list byte)
    (df : DecodeFeedback) :
  DecodeFromBytes i (ty :: lb :: rest) df =
  if len (ty :: lb :: rest) <? u8 lb * 8 then
    Some (Failed (ErrICMPv6OptionLength (len (ty :: lb :: rest)) (u8 lb * 8)), i,
          SetTruncated df)
  else
    match slice (ty :: lb :: rest) 2 (u8 lb * 8) with
    | Returned o_Data =>
        DecodeFromBytes (i ++ [mkICMPv6Option ty (u8 lb * 8) o_Data])
          (drop (Z.to_nat (u8 lb * 8)) (ty :: lb :: rest)) df
    | Failed e => Some (Failed e, i, df)
    | Panicked msg => Some (Panicked msg, i, df)
    end.
Proof.
  unfold DecodeFromBytes at 1. rewrite DecodeFromBytes_loop_header.
  destruct (len (ty :: lb :: rest) <? u8 lb * 8); [reflexivity | ].
  destruct (slice (ty :: lb :: rest) 2 (u8 lb * 8)) as [o_Data | e | msg] eqn:Es;
    try reflexivity.
  apply slice_inv in Es as (_ & H2 & HL & _).
  unfold DecodeFromBytes.
  apply DecodeFromBytes_loop_fuel; rewrite ?length_drop; simpl length in *; lia.
Qed.

(** A zero length byte passes the length check and then fails the slice
    [data[2:0]], wherever in the buffer the option starts. *)
Lemma DecodeFromBytes_zero_length (i : ICMPv6Options) (ty lb : byte)
    (rest : list byte) (df : DecodeFeedback) :
  u8 lb = 0 ->
  DecodeFromBytes i (ty :: lb :: rest) df =
  Some (Panicked "slice bounds out of range"%string, i, df).
Proof.
  intros Hz. rewrite DecodeFromBytes_header. rewrite Hz.
  pose proof (len_nonneg (ty :: lb :: rest)).
  destruct (len (ty :: lb :: rest) <? 0 * 8) eqn:E; [lia | ].
  rewrite slice_panics by lia. reflexivity.
Qed.

(** A buffer with an option header is one whose first two bytes can be read. *)
Lemma index_header (data : list byte) (ty lb : byte) :
  index data 0 = Returned ty -> index data 1 = Returned lb ->
  exists rest, data = ty :: lb :: rest.
Proof.
  unfold index. intros H0 H1.
  destruct data as [ | x [ | y rest]].
  - discriminate.
  - vm_compute in H1. discriminate.
  - destruct ((0 <=? 0) && (0 <? len (x :: y :: rest))); [ | discriminate].
    destruct ((0 <=? 1) && (1 <? len (x :: y :: rest))); [ | discriminate].
    simpl in H0, H1. inversion H0. inversion H1. eexists. reflexivity.
Qed.

Lemma slice_cases (s : list byte) (lo hi : Z) :
  (exists r, slice s lo hi = Returned r) \/
  slice s lo hi = Panicked "slice bounds out of range"%string.
Proof.
  unfold slice. destruct ((0 <=? lo) && (lo <=? hi) && (hi <=? len s));
    [left; eexists | right]; reflexivity.
Qed.

Local Ltac no_further_option :=
  repeat split; intros;
  try discriminate; try constructor; try congruence;
  try (unfold total_Length, len; simpl; lia).

(** What a call leaves behind, whatever its outcome: the options it found are
    appended to the receiver, each within bounds, and together they take no
    more bytes than the buffer holds; a normal return has consumed the whole
    buffer, an error return has called [SetTruncated], and the only panic is
    the failed slice. *)
Lemma DecodeFromBytes_appended (n : nat) :
  forall (data : list byte) (i : ICMPv6Options) (df : DecodeFeedback)
         (r : outcome unit) (i' : ICMPv6Options) (df' : DecodeFeedback),
    (length data <= n)%nat ->
    DecodeFromBytes i data df = Some (r, i', df') ->
    exists new,
      i' = i ++ new /\
      Forall option_within_bounds new /\
      total_Length new <= len data /\
      (r = Returned tt -> total_Length new = len data /\ df' = df) /\
      (forall e, r = Failed e -> df' = SetTruncated df) /\
      (forall msg, r = Panicked msg ->
                   msg = "slice bounds out of range"%string /\ df' = df).
Proof.
  induction n as [ | n IH]; intros data i df r i' df' Hn Hdec.
  - destruct data; [ | simpl in Hn; lia].
    inversion Hdec; subst. exists []. rewrite app_nil_r. no_further_option.
  - destruct data as [ | ty [ | lb rest]].
    + inversion Hdec; subst. exists []. rewrite app_nil_r. no_further_option.
    + inversion Hdec; subst. exists []. rewrite app_nil_r. no_further_option.
    + rewrite DecodeFromBytes_header in Hdec.
      pose proof (len_nonneg (ty :: lb :: rest)) as Hnn.
      destruct (len (ty :: lb :: rest) <? u8 lb * 8) eqn:EL.
      * inversion Hdec; subst. exists []. rewrite app_nil_r.
        no_further_option.
      * destruct (slice_cases (ty :: lb :: rest) 2 (u8 lb * 8)) as [[d Hd] | Hp].
        -- rewrite Hd in Hdec.
           apply slice_inv in Hd as (_ & H2 & HL & Hd).
           pose proof (u8_range lb) as Hlb.
           apply IH in Hdec as (new & Hi' & Hall & Htot & Hret & Herr & Hpan);
             [ | rewrite length_drop; simpl length in *; lia].
           assert (Hdrop : len (drop (Z.to_nat (u8 lb * 8)) (ty :: lb :: rest)) =
                           len (ty :: lb :: rest) - u8 lb * 8).
           { unfold len in *. rewrite length_drop. lia. }
           rewrite Hdrop in *.
           exists (mkICMPv6Option ty (u8 lb * 8) d :: new).
           split; [rewrite Hi', <- app_assoc; reflexivity | ].
           split.
           { constructor; [ | exact Hall].
             unfold option_within_bounds. simpl.
             split; [lia | ]. split; [apply Z.mod_mul; lia | ].
             subst d. unfold len in *. rewrite length_take, length_drop. lia. }
           unfold total_Length in *. simpl.
           split; [lia | ]. split; [ | split; assumption].
           intros Hr. destruct (Hret Hr) as [Ht Hdf]. split; [lia | exact Hdf].
        -- rewrite Hp in Hdec. inversion Hdec; subst. exists []. rewrite app_nil_r.
           no_further_option.
Qed.

(** C3. On a buffer that holds an option header, the length byte is first
    multiplied by 8 and that byte count is then compared with the bytes
    left.  When it exceeds them the call sets the truncation flag and returns
    the length error, without touching the receiver.  Only when it does not
    is [data[2:Length]] taken, with that very count.  Every option a call
    appends therefore lies within the bytes it was given. *)
Theorem ICMPv6Options_convert_then_validate
    (i : ICMPv6Options) (data : list byte) (df : DecodeFeedback) (ty lb : byte) :
  index data 0 = Returned ty ->
  index data 1 = Returned lb ->
  (len data < u8 lb * 8 ->
     DecodeFromBytes i data df =
     Some (Failed (ErrICMPv6OptionLength (len data) (u8 lb * 8)), i, SetTruncated df)) /\
  (u8 lb * 8 <= len data ->
     DecodeFromBytes i data df =
     match slice data 2 (u8 lb * 8) with
     | Returned o_Data =>
         DecodeFromBytes (i ++ [mkICMPv6Option ty (u8 lb * 8) o_Data])
           (drop (Z.to_nat (u8 lb * 8)) data) df
     | Failed e => Some (Failed e, i, df)
     | Panicked msg => Some (Panicked msg, i, df)
     end) /\
  (exists r new df',
     DecodeFromBytes i data df = Some (r, i ++ new, df') /\
     Forall option_within_bounds new /\
     total_Length new <= len data /\
     (forall e, r = Failed e -> df' = SetTruncated df)).
Proof.
  intros H0 H1. destruct (index_header data ty lb H0 H1) as [rest ->].
  split; [ | split].
  - intros Hlt. rewrite DecodeFromBytes_header.
    destruct (len (ty :: lb :: rest) <? u8 lb * 8) eqn:E; [reflexivity | lia].
  - intros Hle. rewrite DecodeFromBytes_header.
    destruct (len (ty :: lb :: rest) <? u8 lb * 8) eqn:E; [lia | reflexivity].
  - destruct (DecodeFromBytes_total i (ty :: lb :: rest) df) as [[[r i'] df'] Hdec].
    destruct (DecodeFromBytes_appended _ _ _ _ _ _ _ (Nat.le_refl _) Hdec)
      as (new & -> & Hall & Htot & _ & Herr & _).
    exists r, new, df'. repeat split; assumption.
Qed.

Lemma ICMPv6Options_convert_then_validate_witness :
  DecodeFromBytes [] [x01; x02; xaa; xbb] {| truncated := false |} =
  Some (Failed (ErrICMPv6OptionLength 4 16), [], {| truncated := true |}).
Proof.
  apply (proj1 (ICMPv6Options_convert_then_validate
                  [] [x01; x02; xaa; xbb] {| truncated := false |} x01 x02
                  eq_refl eq_refl)).
  vm_compute. reflexivity.
Defined.

(** C2, at the failing input. An option whose length byte is zero passes the
    length check ([len(data) < 0] is false) and the slice [data[2:0]] then
    panics: the call neither succeeds nor reports truncation. *)
Theorem ICMPv6Options_zero_length_panics :
  DecodeFromBytes [] [x01; x00] {| truncated := false |} =
  Some (Panicked "slice bounds out of range"%string, [], {| truncated := false |}).
Proof. vm_compute. reflexivity. Qed.

(** ** Ordering of endpoints *)

Lemma bytes_Compare_antisym (x y : list byte) :
  bytes_Compare y x = - bytes_Compare x y.
Proof.
  revert y. induction x as [ | a x IH]; intros [ | b y]; simpl; try reflexivity.
  destruct (Z.ltb_spec (u8 a) (u8 b)); destruct (Z.ltb_spec (u8 b) (u8 a));
    try lia; try reflexivity.
  apply IH.
Qed.

Lemma bytes_Compare_refl (x : list byte) : bytes_Compare x x = 0.
Proof.
  induction x as [ | a x IH]; simpl; [reflexivity | ].
  rewrite Z.ltb_irrefl. exact IH.
Qed.

Lemma bytes_Compare_eq (x y : list byte) : bytes_Compare x y = 0 -> x = y.
Proof.
  revert y. induction x as [ | a x IH]; intros [ | b y]; simpl;
    try reflexivity; try discriminate.
  destruct (Z.ltb_spec (u8 a) (u8 b)); [discriminate | ].
  destruct (Z.ltb_spec (u8 b) (u8 a)); [discriminate | ].
  intros Hc. assert (a = b) by (apply u8_inj; lia). subst b.
  f_equal. apply IH. exact Hc.
Qed.

Lemma bytes_Compare_trans (x y z : list byte) :
  bytes_Compare x y < 0 -> bytes_Compare y z < 0 -> bytes_Compare x z < 0.
Proof.
  revert y z. induction x as [ | a x IH]; intros [ | b y] [ | c z]; simpl; try lia.
  destruct (Z.ltb_spec (u8 a) (u8 b)); destruct (Z.ltb_spec (u8 b) (u8 c));
    destruct (Z.ltb_spec (u8 a) (u8 c)); try lia;
    destruct (Z.ltb_spec (u8 b) (u8 a)); destruct (Z.ltb_spec (u8 c) (u8 b));
    destruct (Z.ltb_spec (u8 c) (u8 a)); try lia.
  apply IH.
Qed.

(** [bytes.Compare] is negative exactly on lexicographically smaller input. *)
Lemma bytes_Compare_lex_lt (x y : list byte) :
  bytes_Compare x y < 0 <-> lex_lt x y.
Proof.
  split.
  - revert y. induction x as [ | a x IH]; intros [ | b y]; simpl; try lia.
    + intros _. constructor.
    + destruct (Z.ltb_spec (u8 a) (u8 b)); [intros _; apply lex_lt_head; assumption | ].
      destruct (Z.ltb_spec (u8 b) (u8 a)); [lia | ].
      intros Hc. assert (a = b) by (apply u8_inj; lia). subst b.
      apply lex_lt_tail. apply IH. exact Hc.
  - induction 1 as [y ys | a b xs ys Hlt | a xs ys Hlex IH]; simpl.
    + lia.
    + destruct (Z.ltb_spec (u8 a) (u8 b)); lia.
    + rewrite Z.ltb_irrefl. exact IH.
Qed.

Lemma Raw_wf (a : Endpoint.t) :
  Endpoint.wf a ->
  Endpoint.Raw a = Returned (take (Z.to_nat (Endpoint.len a)) (Endpoint.raw a)).
Proof.
  intros [Hraw Hlen]. unfold Endpoint.Raw. apply slice_prefix.
  unfold len. rewrite Hraw. unfold MaxEndpointSize in *. lia.
Qed.

(** On endpoints the package can build, [LessThan] never panics and is the
    boolean it is written as. *)
Lemma LessThan_wf (a b : Endpoint.t) (x y : list byte) :
  Endpoint.Raw a = Returned x -> Endpoint.Raw b = Returned y ->
  Endpoint.LessThan a b =
  Returned ((Endpoint.typ a <? Endpoint.typ b) ||
            ((Endpoint.typ a =? Endpoint.typ b) && (bytes_Compare x y <? 0))).
Proof.
  unfold Endpoint.Raw, Endpoint.LessThan. intros -> ->. simpl.
  destruct (Endpoint.typ a <? Endpoint.typ b); [reflexivity | ].
  destruct (Endpoint.typ a =? Endpoint.typ b); reflexivity.
Qed.

(** C9. On endpoints the package can build, [LessThan] returns without
    panicking and is a strict total order: it holds exactly when the type is
    smaller, or the types agree and the meaningful raw bytes are
    lexicographically smaller; it is irreflexive and transitive; and of
    [a.LessThan(b)], [b.LessThan(a)] and equality of [a] and [b], exactly
    one holds. *)
Theorem LessThan_strict_total_order (a b c : Endpoint.t) :
  Endpoint.wf a -> Endpoint.wf b -> Endpoint.wf c ->
  (exists r, Endpoint.LessThan a b = Returned r) /\
  (Endpoint_lt a b <->
     Endpoint.typ a < Endpoint.typ b \/
     (Endpoint.typ a = Endpoint.typ b /\
      exists x y, Endpoint.Raw a = Returned x /\ Endpoint.Raw b = Returned y /\
                  lex_lt x y)) /\
  ~ Endpoint_lt a a /\
  (Endpoint_lt a b -> Endpoint_lt b c -> Endpoint_lt a c) /\
  ((Endpoint_lt a b /\ ~ Endpoint_lt b a /\ ~ Endpoint_same a b) \/
   (~ Endpoint_lt a b /\ Endpoint_lt b a /\ ~ Endpoint_same a b) \/
   (~ Endpoint_lt a b /\ ~ Endpoint_lt b a /\ Endpoint_same a b)).
Proof.
  intros Ha Hb Hc.
  pose proof (Raw_wf a Ha) as Ra. pose proof (Raw_wf b Hb) as Rb.
  pose proof (Raw_wf c Hc) as Rc.
  set (x := take (Z.to_nat (Endpoint.len a)) (Endpoint.raw a)) in *.
  set (y := take (Z.to_nat (Endpoint.len b)) (Endpoint.raw b)) in *.
  set (z := take (Z.to_nat (Endpoint.len c)) (Endpoint.raw c)) in *.
  unfold Endpoint_lt, Endpoint_same.
  rewrite (LessThan_wf a b x y Ra Rb), (LessThan_wf b a y x Rb Ra),
    (LessThan_wf b c y z Rb Rc), (LessThan_wf a c x z Ra Rc),
    (LessThan_wf a a x x Ra Ra).
  rewrite Ra, Rb.
  pose proof (bytes_Compare_antisym x y) as Hanti.
  pose proof (bytes_Compare_refl x) as Hrefl.
  pose proof (bytes_Compare_eq x y) as Heq.
  pose proof (bytes_Compare_trans x y z) as Htrans.
  pose proof (bytes_Compare_lex_lt x y) as Hlex.
  split; [eexists; reflexivity | ].
  split; [ | split; [ | split]].
  - split.
    + intros H. inversion H as [Hb0]; clear H.
      destruct (Z.ltb_spec (Endpoint.typ a) (Endpoint.typ b)); [left; assumption | ].
      destruct (Z.eqb_spec (Endpoint.typ a) (Endpoint.typ b)); [ | discriminate].
      destruct (Z.ltb_spec (bytes_Compare x y) 0); [ | discriminate].
      right. split; [assumption | ]. exists x, y. tauto.
    + intros [Hlt | [Hty (x' & y' & Hx & Hy & Hl)]].
      * destruct (Z.ltb_spec (Endpoint.typ a) (Endpoint.typ b)); [reflexivity | lia].
      * inversion Hx; inversion Hy; subst x' y'.
        destruct (Z.ltb_spec (Endpoint.typ a) (Endpoint.typ b)); [reflexivity | ].
        destruct (Z.eqb_spec (Endpoint.typ a) (Endpoint.typ b)); [ | contradiction].
        destruct (Z.ltb_spec (bytes_Compare x y) 0); [reflexivity | ].
        apply Hlex in Hl. lia.
  - rewrite Z.ltb_irrefl, Hrefl. rewrite andb_false_r. discriminate.
  - destruct (Z.ltb_spec (Endpoint.typ a) (Endpoint.typ b));
      destruct (Z.eqb_spec (Endpoint.typ a) (Endpoint.typ b));
      destruct (Z.ltb_spec (Endpoint.typ b) (Endpoint.typ c));
      destruct (Z.eqb_spec (Endpoint.typ b) (Endpoint.typ c));
      destruct (Z.ltb_spec (Endpoint.typ a) (Endpoint.typ c));
      destruct (Z.eqb_spec (Endpoint.typ a) (Endpoint.typ c));
      destruct (Z.ltb_spec (bytes_Compare x y) 0);
      destruct (Z.ltb_spec (bytes_Compare y z) 0);
      destruct (Z.ltb_spec (bytes_Compare x z) 0);
      simpl; intros; try reflexivity; try discriminate; lia.
  - assert (Hxy : x = y -> bytes_Compare x y = 0) by (intros ->; exact Hrefl).
    assert (Hinj : Returned x = Returned y -> x = y) by (intros H; inversion H; reflexivity).
    destruct (Z.ltb_spec (Endpoint.typ a) (Endpoint.typ b));
      destruct (Z.eqb_spec (Endpoint.typ a) (Endpoint.typ b));
      destruct (Z.ltb_spec (Endpoint.typ b) (Endpoint.typ a));
      destruct (Z.eqb_spec (Endpoint.typ b) (Endpoint.typ a));
      try lia; simpl.
    + left. repeat split; try discriminate. intros [Hty _]. lia.
    + destruct (Z.ltb_spec (bytes_Compare x y) 0);
        destruct (Z.ltb_spec (bytes_Compare y x) 0); try lia.
      * left. repeat split; try discriminate. intros [_ HR]. apply Hinj, Hxy in HR. lia.
      * right. left. repeat split; try discriminate. intros [_ HR]. apply Hinj, Hxy in HR. lia.
      * right. right. repeat split; try discriminate; try assumption.
        f_equal. apply Heq. lia.
    + right. left. repeat split; try discriminate. intros [Hty _]. lia.
Qed.

Lemma LessThan_strict_total_order_witness :
  (exists r, Endpoint.LessThan (Endpoint.Build 1 2 zero_array)
                               (Endpoint.Build 1 4 zero_array) = Returned r) /\
  (Endpoint_lt (Endpoint.Build 1 2 zero_array) (Endpoint.Build 1 4 zero_array) <->
     Endpoint.typ (Endpoint.Build 1 2 zero_array) < Endpoint.typ (Endpoint.Build 1 4 zero_array) \/
     (Endpoint.typ (Endpoint.Build 1 2 zero_array) = Endpoint.typ (Endpoint.Build 1 4 zero_array) /\
      exists x y, Endpoint.Raw (Endpoint.Build 1 2 zero_array) = Returned x /\
                  Endpoint.Raw (Endpoint.Build 1 4 zero_array) = Returned y /\
                  lex_lt x y)) /\
  ~ Endpoint_lt (Endpoint.Build 1 2 zero_array) (Endpoint.Build 1 2 zero_array) /\
  (Endpoint_lt (Endpoint.Build 1 2 zero_array) (Endpoint.Build 1 4 zero_array) ->
   Endpoint_lt (Endpoint.Build 1 4 zero_array) (Endpoint.Build 2 0 zero_array) ->
   Endpoint_lt (Endpoint.Build 1 2 zero_array) (Endpoint.Build 2 0 zero_array)) /\
  ((Endpoint_lt (Endpoint.Build 1 2 zero_array) (Endpoint.Build 1 4 zero_array) /\
    ~ Endpoint_lt (Endpoint.Build 1 4 zero_array) (Endpoint.Build 1 2 zero_array) /\
    ~ Endpoint_same (Endpoint.Build 1 2 zero_array) (Endpoint.Build 1 4 zero_array)) \/
   (~ Endpoint_lt (Endpoint.Build 1 2 zero_array) (Endpoint.Build 1 4 zero_array) /\
    Endpoint_lt (Endpoint.Build 1 4 zero_array) (Endpoint.Build 1 2 zero_array) /\
    ~ Endpoint_same (Endpoint.Build 1 2 zero_array) (Endpoint.Build 1 4 zero_array)) \/
   (~ Endpoint_lt (Endpoint.Build 1 2 zero_array) (Endpoint.Build 1 4 zero_array) /\
    ~ Endpoint_lt (Endpoint.Build 1 4 zero_array) (Endpoint.Build 1 2 zero_array) /\
    Endpoint_same (Endpoint.Build 1 2 zero_array) (Endpoint.Build 1 4 zero_array))).
Proof.
  apply (LessThan_strict_total_order
           (Endpoint.Build 1 2 zero_array) (Endpoint.Build 1 4 zero_array)
           (Endpoint.Build 2 0 zero_array));
    (split; [reflexivity | simpl; unfold MaxEndpointSize; lia]).
Defined.

(** ** Endpoint hashing *)

Lemma shl64_u8 (b : byte) (s : Z) :
  0 <= s <= 56 -> shl64 (u8 b) s = Z.shiftl (u8 b) s.
Proof.
  intros Hs. unfold shl64, wrap64. apply Z.mod_small.
  pose proof (u8_range b) as Hb.
  rewrite Z.shiftl_mul_pow2 by lia.
  assert (Hp : 0 < 2 ^ s <= 2 ^ 56).
  { split; [apply Z.pow_pos_nonneg; lia | apply Z.pow_le_mono_r; lia]. }
  change (2 ^ 64) with (256 * 2 ^ 56). nia.
Qed.

Lemma lxor_below (k a b : Z) :
  0 <= k -> 0 <= a < 2 ^ k -> 0 <= b < 2 ^ k -> 0 <= Z.lxor a b < 2 ^ k.
Proof.
  intros Hk Ha Hb.
  assert (Hnn : 0 <= Z.lxor a b) by (apply Z.lxor_nonneg; lia).
  split; [exact Hnn | ].
  destruct (Z.eq_dec (Z.lxor a b) 0) as [-> | Hne]; [apply Z.pow_pos_nonneg; lia | ].
  apply Z.log2_lt_pow2; [lia | ].
  pose proof (Z.log2_lxor a b (proj1 Ha) (proj1 Hb)) as Hl.
  assert (Hla : a = 0 \/ Z.log2 a < k).
  { destruct (Z.eq_dec a 0); [left; assumption | right; apply Z.log2_lt_pow2; lia]. }
  assert (Hlb : b = 0 \/ Z.log2 b < k).
  { destruct (Z.eq_dec b 0); [left; assumption | right; apply Z.log2_lt_pow2; lia]. }
  assert (Z.log2 0 = 0) by reflexivity.
  destruct Hla as [-> | Hla]; destruct Hlb as [-> | Hlb].
  - rewrite Z.lxor_0_l in Hne. contradiction.
  - rewrite Z.lxor_0_l in *. lia.
  - rewrite Z.lxor_0_r in *. lia.
  - lia.
Qed.

Lemma xor_lanes_below (raw : list byte) (i acc : Z) :
  0 <= acc < 2 ^ 64 -> 0 <= xor_lanes i raw acc < 2 ^ 64.
Proof.
  revert i acc. induction raw as [ | b raw IH]; intros i acc Hacc; simpl; [exact Hacc | ].
  apply IH. apply lxor_below; [lia | exact Hacc | ].
  assert (Hm : 0 <= i mod 8 < 8) by (apply Z.mod_pos_bound; lia).
  rewrite <- shl64_u8 by lia. unfold shl64, wrap64.
  apply Z.mod_pos_bound. reflexivity.
Qed.

(** The loop of the code computes the XOR fold of the specification over
    the bytes it runs through. *)
Lemma Endpoint_FastHash_loop_spec (a : Endpoint.t) (n : nat) (i h : Z) :
  0 <= i -> (Z.to_nat i + n <= length (Endpoint.raw a))%nat ->
  Endpoint.FastHash_loop a n i h =
  Returned (xor_lanes i (take n (drop (Z.to_nat i) (Endpoint.raw a))) h).
Proof.
  revert i h. induction n as [ | n IH]; intros i h Hi Hn; simpl.
  - reflexivity.
  - destruct (Endpoint.raw a !! Z.to_nat i) as [b | ] eqn:Hb;
      [ | apply lookup_ge_None in Hb; lia].
    rewrite (index_ok _ _ _ Hi Hb). simpl.
    rewrite (drop_S _ _ _ Hb). simpl.
    assert (Hm : 0 <= i mod 8 < 8) by (apply Z.mod_pos_bound; lia).
    rewrite shl64_u8 by lia.
    rewrite IH by lia.
    replace (Z.to_nat (i + 1)) with (S (Z.to_nat i)) by lia. reflexivity.
Qed.

Lemma Endpoint_FastHash_spec (a : Endpoint.t) :
  Endpoint.wf a ->
  Endpoint.FastHash a =
  Returned (spec_fast_hash (take (Z.to_nat (Endpoint.len a)) (Endpoint.raw a))).
Proof.
  intros [Hraw Hlen]. unfold Endpoint.FastHash, spec_fast_hash.
  rewrite Endpoint_FastHash_loop_spec; [reflexivity | lia | ].
  rewrite Hraw. unfold MaxEndpointSize in *. lia.
Qed.

(** Bits that do not overlap add up. *)
Lemma lxor_shiftl_above (k acc x : Z) :
  0 <= k -> 0 <= acc < 2 ^ k -> Z.lxor acc (Z.shiftl x k) = acc + x * 2 ^ k.
Proof.
  intros Hk Hacc. rewrite <- Z.shiftl_mul_pow2 by exact Hk.
  symmetry. apply Z.add_nocarry_lxor.
  apply Z.bits_inj'. intros n Hn.
  rewrite Z.land_spec, Z.bits_0.
  destruct (Z.lt_ge_cases n k) as [Hlt | Hge].
  - rewrite Z.shiftl_spec_low by exact Hlt. apply andb_false_r.
  - rewrite <- (Z.mod_small acc (2 ^ k)) by exact Hacc.
    rewrite Z.mod_pow2_bits_high by lia. reflexivity.
Qed.

(** Up to eight bytes fall into eight different lanes, so the fold spells the
    little-endian value of the address. *)
Lemma xor_lanes_le_value (raw : list byte) (i acc : Z) :
  0 <= i -> i + len raw <= 8 -> 0 <= acc < 256 ^ i ->
  xor_lanes i raw acc = acc + 256 ^ i * le_value raw.
Proof.
  revert i acc. induction raw as [ | b raw IH]; intros i acc Hi Hlen Hacc.
  - simpl. lia.
  - rewrite len_cons in Hlen. pose proof (len_nonneg raw) as Hr.
    pose proof (u8_range b) as Hb.
    cbn [xor_lanes le_value].
    rewrite Z.mod_small by lia.
    assert (Hpow : 256 ^ i = 2 ^ (8 * i)).
    { change 256 with (2 ^ 8). rewrite <- Z.pow_mul_r by lia. reflexivity. }
    rewrite lxor_shiftl_above by (rewrite <- ?Hpow; lia).
    rewrite <- Hpow.
    assert (Hnext : 256 ^ (i + 1) = 256 ^ i * 256).
    { rewrite Z.pow_add_r by lia. reflexivity. }
    rewrite IH; [rewrite Hnext; ring | lia | lia | ].
    rewrite Hnext. nia.
Qed.

Lemma le_value_nonneg (raw : list byte) : 0 <= le_value raw.
Proof.
  induction raw as [ | b raw IH]; simpl; [lia | ].
  pose proof (u8_range b). lia.
Qed.

(** Zero bytes at the end of an address add nothing to the number it
    spells. *)
Lemma le_value_zero_padding (raw : list byte) (k : nat) :
  le_value (raw ++ replicate k x00) = le_value raw.
Proof.
  induction raw as [ | b raw IH]; simpl.
  - induction k as [ | k IHk]; simpl; [reflexivity | ].
    rewrite IHk. reflexivity.
  - rewrite IH. reflexivity.
Qed.

(** Two addresses that spell the same number differ by zero bytes at the end
    of the longer one, and by nothing else. *)
Lemma le_value_eq_zero_padding (x y : list byte) :
  (length y <= length x)%nat -> le_value x = le_value y ->
  x = y ++ replicate (length x - length y) x00.
Proof.
  revert y. induction x as [ | a x IH]; intros y Hlen Hv.
  - destruct y; [reflexivity | simpl in Hlen; lia].
  - pose proof (u8_range a) as Ha. pose proof (le_value_nonneg x) as Hx.
    destruct y as [ | b y].
    + simpl in Hv. assert (Hz : u8 a = u8 x00) by (change (u8 x00) with 0; lia).
      apply u8_inj in Hz. subst a.
      assert (Hx0 : le_value x = le_value []) by (simpl; lia).
      pose proof (IH [] ltac:(simpl; lia) Hx0) as Hpad.
      simpl in Hpad |- *. rewrite Nat.sub_0_r in Hpad. rewrite <- Hpad. reflexivity.
    + simpl in Hlen, Hv. pose proof (u8_range b) as Hb.
      assert (Hab : u8 a = u8 b) by lia.
      apply u8_inj in Hab. subst b.
      simpl. f_equal. apply IH; lia.
Qed.

(** C8 (as the code has it). [FastHash] returns the XOR fold of the
    specification over the meaningful raw bytes, a 64-bit value.  Among
    addresses of at most 8 bytes it is collision-free up to zero bytes at
    the end: two such endpoints receive the same hash exactly when one
    address is the other followed by zero bytes only; every other pair of
    distinct addresses, of the same or of different lengths, receives
    distinct hash values. *)
Theorem Endpoint_FastHash_collision_free_up_to_zero_padding (a b : Endpoint.t) :
  Endpoint.wf a -> Endpoint.wf b ->
  (exists x, Endpoint.Raw a = Returned x /\
             Endpoint.FastHash a = Returned (spec_fast_hash x) /\
             0 <= spec_fast_hash x < 2 ^ 64) /\
  (Endpoint.len a <= 8 -> Endpoint.len b <= 8 ->
   exists x y,
     Endpoint.Raw a = Returned x /\ Endpoint.Raw b = Returned y /\
     (Endpoint.FastHash a = Endpoint.FastHash b <->
      exists k, x = y ++ replicate k x00 \/ y = x ++ replicate k x00) /\
     (length x = length y -> x <> y -> Endpoint.FastHash a <> Endpoint.FastHash b)).
Proof.
  intros Ha Hb. split.
  - eexists. split; [apply Raw_wf; exact Ha | ].
    split; [apply Endpoint_FastHash_spec; exact Ha | ].
    apply xor_lanes_below. lia.
  - intros Ha8 Hb8.
    rewrite (Raw_wf a Ha), (Raw_wf b Hb).
    rewrite (Endpoint_FastHash_spec a Ha), (Endpoint_FastHash_spec b Hb).
    destruct Ha as [Hra [Ha0 Ha16]], Hb as [Hrb [Hb0 Hb16]].
    set (x := take (Z.to_nat (Endpoint.len a)) (Endpoint.raw a)).
    set (y := take (Z.to_nat (Endpoint.len b)) (Endpoint.raw b)).
    assert (Hx : length x = Z.to_nat (Endpoint.len a)).
    { unfold x. rewrite length_take, Hra. unfold MaxEndpointSize in *. lia. }
    assert (Hy : length y = Z.to_nat (Endpoint.len b)).
    { unfold y. rewrite length_take, Hrb. unfold MaxEndpointSize in *. lia. }
    unfold spec_fast_hash.
    rewrite !xor_lanes_le_value
      by (unfold len; rewrite ?Hx, ?Hy; change (256 ^ 0) with 1; lia).
    change (256 ^ 0) with 1. rewrite !Z.add_0_l, !Z.mul_1_l.
    assert (Hiff : Returned (le_value x) = Returned (le_value y) <->
                   exists k, x = y ++ replicate k x00 \/ y = x ++ replicate k x00).
    { split.
      - intros Hh. inversion Hh as [Hv].
        destruct (Nat.le_gt_cases (length y) (length x)) as [Hle | Hgt].
        + exists (length x - length y)%nat. left.
          apply le_value_eq_zero_padding; assumption.
        + exists (length y - length x)%nat. right.
          apply le_value_eq_zero_padding; [lia | congruence].
      - intros [k [Hk | Hk]]; f_equal.
        + rewrite Hk at 1. apply le_value_zero_padding.
        + rewrite Hk. symmetry. apply le_value_zero_padding. }
    exists x, y. split; [reflexivity | ]. split; [reflexivity | ].
    split; [exact Hiff | ].
    intros Hlen Hne Hh. apply Hne. apply Hiff in Hh as [k [Hk | Hk]].
    + assert (k = 0)%nat.
      { apply (f_equal length) in Hk. rewrite length_app, length_replicate in Hk. lia. }
      subst k. rewrite app_nil_r in Hk. exact Hk.
    + assert (k = 0)%nat.
      { apply (f_equal length) in Hk. rewrite length_app, length_replicate in Hk. lia. }
      subst k. rewrite app_nil_r in Hk. symmetry. exact Hk.
Qed.

Lemma Endpoint_FastHash_collision_free_up_to_zero_padding_witness :
  (exists x, Endpoint.Raw (Endpoint.Build 2 1 (copy zero_array [x01])) = Returned x /\
             Endpoint.FastHash (Endpoint.Build 2 1 (copy zero_array [x01]))
               = Returned (spec_fast_hash x) /\
             0 <= spec_fast_hash x < 2 ^ 64) /\
  (Endpoint.len (Endpoint.Build 2 1 (copy zero_array [x01])) <= 8 ->
   Endpoint.len (Endpoint.Build 2 2 (copy zero_array [x02; x03])) <= 8 ->
   exists x y,
     Endpoint.Raw (Endpoint.Build 2 1 (copy zero_array [x01])) = Returned x /\
     Endpoint.Raw (Endpoint.Build 2 2 (copy zero_array [x02; x03])) = Returned y /\
     (Endpoint.FastHash (Endpoint.Build 2 1 (copy zero_array [x01])) =
      Endpoint.FastHash (Endpoint.Build 2 2 (copy zero_array [x02; x03])) <->
      exists k, x = y ++ replicate k x00 \/ y = x ++ replicate k x00) /\
     (length x = length y -> x <> y ->
      Endpoint.FastHash (Endpoint.Build 2 1 (copy zero_array [x01])) <>
      Endpoint.FastHash (Endpoint.Build 2 2 (copy zero_array [x02; x03])))).
Proof.
  apply (Endpoint_FastHash_collision_free_up_to_zero_padding
           (Endpoint.Build 2 1 (copy zero_array [x01]))
           (Endpoint.Build 2 2 (copy zero_array [x02; x03])));
    (split; [reflexivity | simpl; unfold MaxEndpointSize; lia]).
Defined.

(** C8, counterexample. The empty address and the one-byte address [00] are
    distinct, both at most 8 bytes long, and both hash to 0: the hash does
    not see the length. *)
Lemma Endpoint_FastHash_collision :
  exists a b,
    NewEndpoint 1 [] = Returned a /\ NewEndpoint 1 [x00] = Returned b /\
    Endpoint.len a <= 8 /\ Endpoint.len b <= 8 /\
    Endpoint.Raw a <> Endpoint.Raw b /\
    Endpoint.FastHash a = Endpoint.FastHash b.
Proof.
  eexists. eexists.
  split; [reflexivity | ]. split; [reflexivity | ].
  split; [vm_compute; discriminate | ]. split; [vm_compute; discriminate | ].
  split; [vm_compute; discriminate | vm_compute; reflexivity].
Qed.

(** * Further properties of flows.go *)

(** ** Building flows *)

(** X1. When both addresses have at most 16 bytes, [NewFlow] builds the flow
    that [FlowFromEndpoints] builds from the two endpoints [NewEndpoint]
    makes of them, and [Endpoints()] gives these two endpoints back. *)
Theorem NewFlow_as_FlowFromEndpoints (t : EndpointType) (src dst : list byte) :
  len src <= 16 -> len dst <= 16 ->
  exists a b f,
    NewEndpoint t src = Returned a /\ NewEndpoint t dst = Returned b /\
    NewFlow t src dst = Returned f /\
    FlowFromEndpoints a b = Returned f /\
    Flow.Endpoints f = (a, b).
Proof.
  intros Hs Hd. unfold NewEndpoint, NewFlow, FlowFromEndpoints.
  destruct (len src >? MaxEndpointSize) eqn:Es; [unfold MaxEndpointSize in Es; lia | ].
  destruct (len dst >? MaxEndpointSize) eqn:Ed; [unfold MaxEndpointSize in Ed; lia | ].
  do 3 eexists. split; [reflexivity | ]. split; [reflexivity | ].
  simpl. rewrite Z.eqb_refl. simpl. repeat split.
Qed.

Lemma NewFlow_as_FlowFromEndpoints_witness :
  exists a b f,
    NewEndpoint 2 [x0a; x00; x00; x01] = Returned a /\
    NewEndpoint 2 [x0a; x00; x00; x02] = Returned b /\
    NewFlow 2 [x0a; x00; x00; x01] [x0a; x00; x00; x02] = Returned f /\
    FlowFromEndpoints a b = Returned f /\
    Flow.Endpoints f = (a, b).
Proof.
  apply (NewFlow_as_FlowFromEndpoints 2 [x0a; x00; x00; x01] [x0a; x00; x00; x02]);
    vm_compute; discriminate.
Defined.

(** X2. [NewFlow] panics exactly when one of the two addresses is longer
    than 16 bytes; otherwise it returns a flow. *)
Theorem NewFlow_panics_iff (t : EndpointType) (src dst : list byte) :
  (NewFlow t src dst =
     Panicked "flow raw byte length greater than MaxEndpointSize"%string <->
   len src > 16 \/ len dst > 16) /\
  ((exists f, NewFlow t src dst = Returned f) <-> len src <= 16 /\ len dst <= 16).
Proof.
  unfold NewFlow.
  destruct (len src >? MaxEndpointSize) eqn:Es;
    destruct (len dst >? MaxEndpointSize) eqn:Ed; unfold MaxEndpointSize in *; simpl;
    (split; split; intros H;
     first [ discriminate | reflexivity | lia
           | destruct H as [f Hf]; discriminate
           | eexists; reflexivity ]).
Qed.

Lemma NewFlow_panics_iff_witness :
  NewFlow 1 (replicate 17 xff) [x01] =
  Panicked "flow raw byte length greater than MaxEndpointSize"%string.
Proof.
  apply (proj2 (proj1 (NewFlow_panics_iff 1 (replicate 17 xff) [x01]))).
  left. vm_compute. reflexivity.
Defined.

(** X3. A flow is rebuilt from its own endpoints: [FlowFromEndpoints] applied
    to [f.Src()] and [f.Dst()] returns [f], never an error. *)
Theorem FlowFromEndpoints_Endpoints (f : Flow.t) :
  FlowFromEndpoints (Flow.Src f) (Flow.Dst f) = Returned f.
Proof.
  destruct f as [t sl dl s d]. unfold FlowFromEndpoints, Flow.Src, Flow.Dst. simpl.
  rewrite Z.eqb_refl. reflexivity.
Qed.

(** X4. Swapping the endpoints and reversing the flow are the same thing:
    if [FlowFromEndpoints a b] returns [f], then [FlowFromEndpoints b a]
    returns [f.Reverse()], whose source is [b] and destination [a]. *)
Theorem FlowFromEndpoints_swap_Reverse (a b : Endpoint.t) (f : Flow.t) :
  FlowFromEndpoints a b = Returned f ->
  FlowFromEndpoints b a = Returned (Flow.Reverse f) /\
  Flow.Endpoints (Flow.Reverse f) = (b, a).
Proof.
  unfold FlowFromEndpoints.
  destruct (Endpoint.typ a =? Endpoint.typ b) eqn:E; simpl; [ | discriminate].
  apply Z.eqb_eq in E. intros H. inversion H; subst f; clear H.
  rewrite <- E, Z.eqb_refl. simpl.
  destruct a as [ta la ra], b as [tb lb rb]. simpl in *. subst tb.
  split; reflexivity.
Qed.

Lemma FlowFromEndpoints_swap_Reverse_witness :
  FlowFromEndpoints (Endpoint.Build 1 2 zero_array) (Endpoint.Build 1 4 zero_array) =
    Returned (Flow.Reverse (Flow.Build 1 4 2 zero_array zero_array)) /\
  Flow.Endpoints (Flow.Reverse (Flow.Build 1 4 2 zero_array zero_array)) =
    (Endpoint.Build 1 2 zero_array, Endpoint.Build 1 4 zero_array).
Proof.
  apply (FlowFromEndpoints_swap_Reverse
           (Endpoint.Build 1 4 zero_array) (Endpoint.Build 1 2 zero_array)
           (Flow.Build 1 4 2 zero_array zero_array)).
  reflexivity.
Defined.

Lemma NewEndpoint_returns (typ : EndpointType) (raw : list byte) :
  len raw <= 16 ->
  NewEndpoint typ raw = Returned (Endpoint.Build typ (len raw) (copy zero_array raw)) /\
  Endpoint.Raw (Endpoint.Build typ (len raw) (copy zero_array raw)) = Returned raw.
Proof.
  intros Hlen. unfold NewEndpoint.
  destruct (len raw >? MaxEndpointSize) eqn:E; [unfold MaxEndpointSize in E; lia | ].
  split; [reflexivity | ].
  unfold Endpoint.Raw. simpl.
  pose proof (len_nonneg raw) as Hn.
  assert (Hc : len (copy zero_array raw) = 16).
  { unfold len at 1. rewrite length_copy_zero_array by (unfold MaxEndpointSize; lia).
    reflexivity. }
  rewrite slice_prefix by lia.
  rewrite copy_zero_array by (unfold MaxEndpointSize; lia).
  unfold len. rewrite Nat2Z.id. rewrite take_app_length. reflexivity.
Qed.

(** X5. Endpoints work as map keys: two calls of [NewEndpoint] return the
    same value only for the same type and the same bytes. *)
Theorem NewEndpoint_injective (t1 t2 : EndpointType) (r1 r2 : list byte) (e : Endpoint.t) :
  NewEndpoint t1 r1 = Returned e -> NewEndpoint t2 r2 = Returned e ->
  t1 = t2 /\ r1 = r2.
Proof.
  intros H1 H2.
  assert (L1 : len r1 <= 16).
  { unfold NewEndpoint in H1. destruct (len r1 >? MaxEndpointSize) eqn:E;
      [discriminate | unfold MaxEndpointSize in E; lia]. }
  assert (L2 : len r2 <= 16).
  { unfold NewEndpoint in H2. destruct (len r2 >? MaxEndpointSize) eqn:E;
      [discriminate | unfold MaxEndpointSize in E; lia]. }
  destruct (NewEndpoint_returns t1 r1 L1) as [He1 Hr1].
  destruct (NewEndpoint_returns t2 r2 L2) as [He2 Hr2].
  rewrite H1 in He1. rewrite H2 in He2.
  inversion He1 as [E1]. rewrite <- E1 in Hr1. clear E1.
  inversion He2 as [E2]. rewrite <- E2 in Hr2.
  split; [rewrite E2 in He1; inversion He1; reflexivity | ].
  rewrite Hr1 in Hr2. inversion Hr2. reflexivity.
Qed.

Lemma NewEndpoint_injective_witness : 2 = 2 /\ [x0a; x01] = [x0a; x01].
Proof.
  apply (NewEndpoint_injective 2 2 [x0a; x01] [x0a; x01]
           (Endpoint.Build 2 2 (copy zero_array [x0a; x01]))); reflexivity.
Defined.

(** ** Hashing flows *)

Lemma shl64_u8_16 (b : byte) (s : Z) :
  0 <= s <= 48 -> shl64 (u8 b) s = Z.shiftl (u8 b) s.
Proof. intros Hs. apply shl64_u8. lia. Qed.

Lemma hashed_bytes_lookup (slen : Z) (buf : list byte) (i : Z) :
  0 <= i < slen -> (Z.to_nat slen <= length buf)%nat ->
  hashed_bytes slen buf !! Z.to_nat i = buf !! Z.to_nat (slen - 1 - i).
Proof.
  intros Hi Hlen. unfold hashed_bytes.
  assert (Ht : length (take (Z.to_nat slen) buf) = Z.to_nat slen)
    by (rewrite length_take; lia).
  rewrite reverse_lookup by (rewrite Ht; lia). rewrite Ht.
  rewrite lookup_take_lt by lia. f_equal. lia.
Qed.

Lemma length_hashed_bytes (slen : Z) (buf : list byte) :
  (Z.to_nat slen <= length buf)%nat -> length (hashed_bytes slen buf) = Z.to_nat slen.
Proof.
  intros H. unfold hashed_bytes. rewrite length_reverse, length_take. lia.
Qed.

(** The loop of the code folds the two byte sequences it reads. *)
Lemma Flow_FastHash_loop_spec (f : Flow.t) (n : nat) (i a b : Z) :
  Flow.wf f -> 0 <= i -> i + Z.of_nat n <= Flow.slen f ->
  Flow.FastHash_loop f n i a b =
  Returned
    (xor_lanes16 i (take n (drop (Z.to_nat i) (hashed_bytes (Flow.slen f) (Flow.src f)))) a,
     xor_lanes16 i (take n (drop (Z.to_nat i) (hashed_bytes (Flow.slen f) (Flow.dst f)))) b).
Proof.
  intros (Hsrc & Hdst & Hsl & Hdl). unfold MaxEndpointSize in *.
  revert i a b. induction n as [ | n IH]; intros i a b Hi Hn; [reflexivity | ].
  cbn [Flow.FastHash_loop].
  assert (Hs : is_Some (hashed_bytes (Flow.slen f) (Flow.src f) !! Z.to_nat i)).
  { apply lookup_lt_is_Some. rewrite length_hashed_bytes; lia. }
  assert (Hd : is_Some (hashed_bytes (Flow.slen f) (Flow.dst f) !! Z.to_nat i)).
  { apply lookup_lt_is_Some. rewrite length_hashed_bytes; lia. }
  destruct Hs as [s Hs], Hd as [d Hd].
  rewrite (drop_S _ _ _ Hs), (drop_S _ _ _ Hd).
  rewrite hashed_bytes_lookup in Hs, Hd by lia.
  assert (Hidx : 0 <= Flow.slen f - 1 - i) by lia.
  rewrite (index_ok _ _ _ Hidx Hs), (index_ok _ _ _ Hidx Hd).
  cbn [bind take xor_lanes16].
  assert (Hm : 0 <= i mod 4 < 4) by (apply Z.mod_pos_bound; lia).
  rewrite !shl64_u8_16 by lia.
  rewrite IH by lia.
  replace (Z.to_nat (i + 1)) with (S (Z.to_nat i)) by lia. reflexivity.
Qed.

(** X6. On a flow the package can build, [FastHash] returns without
    panicking: it reads only the first [slen] bytes of each buffer, and its
    result is a 64-bit value. *)
Theorem Flow_FastHash_returns (f : Flow.t) :
  Flow.wf f -> exists h, Flow.FastHash f = Returned h /\ 0 <= h < 2 ^ 64.
Proof.
  intros Hwf. unfold Flow.FastHash.
  destruct Hwf as (Hsrc & Hdst & Hsl & Hdl) eqn:E. clear E.
  rewrite Flow_FastHash_loop_spec by (repeat split; unfold Flow.wf in *; lia || tauto).
  simpl.
  match goal with
  | |- context [if ?c then _ else _] => destruct c
  end; eexists; (split; [reflexivity | ]);
    unfold add64, wrap64; apply Z.mod_pos_bound; reflexivity.
Qed.

Lemma Flow_FastHash_returns_witness :
  exists h, Flow.FastHash (Flow.Build 1 4 4 (copy zero_array [x0a; x00; x00; x01])
                             (copy zero_array [x0a; x00; x00; x02])) = Returned h /\
            0 <= h < 2 ^ 64.
Proof.
  apply (Flow_FastHash_returns
           (Flow.Build 1 4 4 (copy zero_array [x0a; x00; x00; x01])
              (copy zero_array [x0a; x00; x00; x02]))).
  unfold Flow.wf, MaxEndpointSize. simpl. repeat split; lia.
Defined.

(** X7. A flow whose two addresses have the same length hashes like its
    reverse. *)
Theorem Flow_FastHash_symmetric_same_length (f : Flow.t) :
  Flow.slen f = Flow.dlen f ->
  Flow.FastHash (Flow.Reverse f) = Flow.FastHash f.
Proof.
  intros Hlen. unfold Flow.FastHash.
  rewrite Flow_FastHash_loop_Reverse by exact Hlen.
  change (Flow.slen (Flow.Reverse f)) with (Flow.dlen f). rewrite <- Hlen.
  destruct (Flow.FastHash_loop f (Z.to_nat (Flow.slen f)) 0 0 0) as [[a b] | e | msg];
    simpl; try reflexivity.
  destruct (Z.gtb_spec b a); destruct (Z.gtb_spec a b); try reflexivity; try lia.
  replace b with a by lia. reflexivity.
Qed.

Lemma Flow_FastHash_symmetric_same_length_witness :
  Flow.FastHash (Flow.Reverse (Flow.Build 1 4 4 (copy zero_array [x0a; x00; x00; x01])
                                 (copy zero_array [x0a; x00; x00; x02]))) =
  Flow.FastHash (Flow.Build 1 4 4 (copy zero_array [x0a; x00; x00; x01])
                   (copy zero_array [x0a; x00; x00; x02])).
Proof.
  apply (Flow_FastHash_symmetric_same_length
           (Flow.Build 1 4 4 (copy zero_array [x0a; x00; x00; x01])
              (copy zero_array [x0a; x00; x00; x02]))).
  reflexivity.
Defined.

Lemma lane16_value_nonneg (raw : list byte) : 0 <= lane16_value raw.
Proof.
  induction raw as [ | b raw IH]; simpl; [lia | ].
  pose proof (u8_range b). lia.
Qed.

(** Two byte strings of one length interleave into 16-bit lanes: low byte of
    each lane from the first, high byte from the second. *)
Lemma lane16_interleave_range (x y : list byte) :
  length x = length y ->
  0 <= lane16_value x + 256 * lane16_value y < 65536 ^ len x.
Proof.
  revert y. induction x as [ | a x IH]; intros [ | b y] Hlen; try discriminate.
  - simpl. unfold len. simpl. lia.
  - simpl in Hlen. rewrite len_cons. cbn [lane16_value].
    pose proof (u8_range a). pose proof (u8_range b). pose proof (len_nonneg x).
    specialize (IH y ltac:(lia)).
    rewrite Z.pow_add_r by lia. change (65536 ^ 1) with 65536. lia.
Qed.

Lemma lane16_interleave_inj (x y x' y' : list byte) :
  length x = length y -> length x' = length x -> length y' = length x ->
  lane16_value x + 256 * lane16_value y = lane16_value x' + 256 * lane16_value y' ->
  x = x' /\ y = y'.
Proof.
  revert y x' y'.
  induction x as [ | a x IH]; intros [ | b y] [ | a' x'] [ | b' y'] H1 H2 H3 Hv;
    try discriminate; [split; reflexivity | ].
  simpl in H1, H2, H3. cbn [lane16_value] in Hv.
  pose proof (u8_range a). pose proof (u8_range b).
  pose proof (u8_range a'). pose proof (u8_range b').
  assert (Ha : u8 a = u8 a') by lia.
  assert (Hb : u8 b = u8 b') by lia.
  apply u8_inj in Ha, Hb. subst a' b'.
  destruct (IH y x' y') as [-> ->]; [lia | lia | lia | lia | split; reflexivity].
Qed.

(** Up to four bytes fall into four different lanes. *)
Lemma xor_lanes16_lane16_value (raw : list byte) (i acc : Z) :
  0 <= i -> i + len raw <= 4 -> 0 <= acc < 65536 ^ i ->
  xor_lanes16 i raw acc = acc + 65536 ^ i * lane16_value raw.
Proof.
  revert i acc. induction raw as [ | b raw IH]; intros i acc Hi Hlen Hacc.
  - simpl. lia.
  - rewrite len_cons in Hlen. pose proof (len_nonneg raw) as Hr.
    pose proof (u8_range b) as Hb.
    cbn [xor_lanes16 lane16_value].
    rewrite Z.mod_small by lia.
    assert (Hpow : 65536 ^ i = 2 ^ (16 * i)).
    { change 65536 with (2 ^ 16). rewrite <- Z.pow_mul_r by lia. reflexivity. }
    rewrite lxor_shiftl_above by (rewrite <- ?Hpow; lia).
    rewrite <- Hpow.
    assert (Hnext : 65536 ^ (i + 1) = 65536 ^ i * 65536).
    { rewrite Z.pow_add_r by lia. reflexivity. }
    rewrite IH; [rewrite Hnext; ring | lia | lia | ].
    rewrite Hnext. nia.
Qed.

(** For source addresses of at most four bytes the hash interleaves the two
    accumulators, the larger one in the low byte of each lane. *)
Lemma Flow_FastHash_small (f : Flow.t) :
  Flow.wf f -> Flow.slen f <= 4 ->
  Flow.FastHash f =
  Returned
    (if lane16_value (hashed_bytes (Flow.slen f) (Flow.src f)) >?
        lane16_value (hashed_bytes (Flow.slen f) (Flow.dst f))
     then lane16_value (hashed_bytes (Flow.slen f) (Flow.src f)) +
          256 * lane16_value (hashed_bytes (Flow.slen f) (Flow.dst f))
     else lane16_value (hashed_bytes (Flow.slen f) (Flow.dst f)) +
          256 * lane16_value (hashed_bytes (Flow.slen f) (Flow.src f))).
Proof.
  intros Hwf H4. unfold Flow.FastHash.
  pose proof Hwf as (Hsrc & Hdst & Hsl & Hdl). unfold MaxEndpointSize in *.
  rewrite Flow_FastHash_loop_spec by (assumption || lia).
  change (Z.to_nat 0) with 0%nat. rewrite !drop_0.
  set (S := hashed_bytes (Flow.slen f) (Flow.src f)).
  set (D := hashed_bytes (Flow.slen f) (Flow.dst f)).
  assert (HS : length S = Z.to_nat (Flow.slen f))
    by (apply length_hashed_bytes; lia).
  assert (HD : length D = Z.to_nat (Flow.slen f))
    by (apply length_hashed_bytes; lia).
  rewrite !take_ge by lia.
  rewrite !xor_lanes16_lane16_value
    by (unfold len; rewrite ?HS, ?HD; change (65536 ^ 0) with 1; lia).
  cbn [bind]. rewrite !Z.add_0_l, !Z.pow_0_r, !Z.mul_1_l.
  pose proof (lane16_value_nonneg S) as HSn.
  pose proof (lane16_value_nonneg D) as HDn.
  assert (Hle : 65536 ^ len S <= 2 ^ 64).
  { change (2 ^ 64) with (65536 ^ 4). apply Z.pow_le_mono_r; unfold len; lia. }
  pose proof (lane16_interleave_range S D ltac:(lia)) as HSD.
  pose proof (lane16_interleave_range D S ltac:(lia)) as HDS.
  replace (len D) with (len S) in HDS by (unfold len; lia).
  assert (Hshl : forall v, 0 <= v -> 256 * v < 2 ^ 64 -> shl64 v 8 = 256 * v).
  { intros v Hv Hb. unfold shl64, wrap64. rewrite Z.shiftl_mul_pow2 by lia.
    change (2 ^ 8) with 256. rewrite Z.mod_small by lia. lia. }
  rewrite !Hshl by lia.
  unfold add64, wrap64. rewrite !Z.mod_small by lia.
  destruct (lane16_value S >? lane16_value D); reflexivity.
Qed.

(** X8. Among flows whose addresses all have one length of at most four
    bytes, the hash identifies the flow up to its direction: two such flows
    with the same hash have the same two addresses, in the same or in the
    opposite order. *)
Theorem Flow_FastHash_collision_free_up_to_Reverse (f g : Flow.t) :
  Flow.wf f -> Flow.wf g ->
  Flow.slen f <= 4 ->
  Flow.dlen f = Flow.slen f -> Flow.slen g = Flow.slen f -> Flow.dlen g = Flow.slen f ->
  Flow.FastHash f = Flow.FastHash g ->
  (Endpoint.Raw (Flow.Src f) = Endpoint.Raw (Flow.Src g) /\
   Endpoint.Raw (Flow.Dst f) = Endpoint.Raw (Flow.Dst g)) \/
  (Endpoint.Raw (Flow.Src f) = Endpoint.Raw (Flow.Dst g) /\
   Endpoint.Raw (Flow.Dst f) = Endpoint.Raw (Flow.Src g)).
Proof.
  intros Hf Hg H4 Hdf Hsg Hdg Hh.
  rewrite (Flow_FastHash_small f Hf H4) in Hh.
  rewrite (Flow_FastHash_small g Hg ltac:(lia)) in Hh.
  pose proof Hf as (Hfs & Hfd & Hfl & _). pose proof Hg as (Hgs & Hgd & _ & _).
  unfold MaxEndpointSize in *.
  unfold Endpoint.Raw, Flow.Src, Flow.Dst. simpl.
  rewrite Hdf, Hdg, Hsg. rewrite Hsg in Hh.
  set (n := Flow.slen f) in *.
  assert (Hlen : forall buf, length buf = Z.to_nat 16 -> length (hashed_bytes n buf) = Z.to_nat n).
  { intros buf Hb. apply length_hashed_bytes. lia. }
  assert (Hback : forall b1 b2,
             length b1 = Z.to_nat 16 -> length b2 = Z.to_nat 16 ->
             hashed_bytes n b1 = hashed_bytes n b2 -> slice b1 0 n = slice b2 0 n).
  { intros b1 b2 L1 L2 Hb. rewrite !slice_prefix by (unfold len; lia). f_equal.
    apply (f_equal reverse) in Hb. unfold hashed_bytes in Hb.
    rewrite !reverse_involutive in Hb. exact Hb. }
  inversion Hh as [Hv]; clear Hh.
  destruct (lane16_value (hashed_bytes n (Flow.src f)) >?
            lane16_value (hashed_bytes n (Flow.dst f)));
    destruct (lane16_value (hashed_bytes n (Flow.src g)) >?
              lane16_value (hashed_bytes n (Flow.dst g)));
    (apply lane16_interleave_inj in Hv as [E1 E2];
     [ | rewrite !Hlen by assumption; reflexivity ..]);
    (apply Hback in E1; [ | assumption ..]);
    (apply Hback in E2; [ | assumption ..]);
    tauto.
Qed.

Lemma Flow_FastHash_collision_free_up_to_Reverse_witness :
  (Endpoint.Raw (Flow.Src (Flow.Build 1 2 2 (copy zero_array [x01; x02])
                             (copy zero_array [x03; x04]))) =
   Endpoint.Raw (Flow.Src (Flow.Build 1 2 2 (copy zero_array [x03; x04])
                             (copy zero_array [x01; x02]))) /\
   Endpoint.Raw (Flow.Dst (Flow.Build 1 2 2 (copy zero_array [x01; x02])
                             (copy zero_array [x03; x04]))) =
   Endpoint.Raw (Flow.Dst (Flow.Build 1 2 2 (copy zero_array [x03; x04])
                             (copy zero_array [x01; x02])))) \/
  (Endpoint.Raw (Flow.Src (Flow.Build 1 2 2 (copy zero_array [x01; x02])
                             (copy zero_array [x03; x04]))) =
   Endpoint.Raw (Flow.Dst (Flow.Build 1 2 2 (copy zero_array [x03; x04])
                             (copy zero_array [x01; x02]))) /\
   Endpoint.Raw (Flow.Dst (Flow.Build 1 2 2 (copy zero_array [x01; x02])
                             (copy zero_array [x03; x04]))) =
   Endpoint.Raw (Flow.Src (Flow.Build 1 2 2 (copy zero_array [x03; x04])
                             (copy zero_array [x01; x02])))).
Proof.
  apply (Flow_FastHash_collision_free_up_to_Reverse
           (Flow.Build 1 2 2 (copy zero_array [x01; x02]) (copy zero_array [x03; x04]))
           (Flow.Build 1 2 2 (copy zero_array [x03; x04]) (copy zero_array [x01; x02])));
    try (unfold Flow.wf, MaxEndpointSize; simpl; repeat split; lia);
    reflexivity.
Defined.

(** ** Hashing endpoints *)

Lemma xor_lanes_acc (raw : list byte) (i acc : Z) :
  xor_lanes i raw acc = Z.lxor acc (xor_lanes i raw 0).
Proof.
  revert i acc. induction raw as [ | b raw IH]; intros i acc; simpl.
  - rewrite Z.lxor_0_r. reflexivity.
  - rewrite IH. rewrite (IH _ (Z.lxor 0 _)).
    rewrite Z.lxor_0_l, Z.lxor_assoc. reflexivity.
Qed.

Lemma xor_lanes_next8 (raw : list byte) (i acc : Z) :
  xor_lanes (i + 8) raw acc = xor_lanes i raw acc.
Proof.
  revert i acc. induction raw as [ | b raw IH]; intros i acc; simpl; [reflexivity | ].
  replace (i + 8 + 1) with (i + 1 + 8) by lia. rewrite IH.
  replace ((i + 8) mod 8) with (i mod 8); [reflexivity | ].
  replace (i + 8) with (i + 1 * 8) by lia. rewrite Z.mod_add by lia. reflexivity.
Qed.

Lemma xor_lanes_app (x y : list byte) (i acc : Z) :
  xor_lanes i (x ++ y) acc = xor_lanes (i + len x) y (xor_lanes i x acc).
Proof.
  revert i acc. induction x as [ | b x IH]; intros i acc.
  - simpl. unfold len. simpl. rewrite Z.add_0_r. reflexivity.
  - rewrite len_cons. simpl. rewrite IH. f_equal. lia.
Qed.

Lemma le_value_app_zero (raw : list byte) : le_value (raw ++ [x00]) = le_value raw.
Proof.
  induction raw as [ | b raw IH]; [reflexivity | ].
  simpl. rewrite IH. reflexivity.
Qed.

(** The fold over an address of at most 16 bytes: the first eight bytes spell
    one number, the remaining ones another, and the two are XOR-ed. *)
Lemma spec_fast_hash_halves (raw : list byte) :
  len raw <= 16 ->
  spec_fast_hash raw = Z.lxor (le_value (take 8 raw)) (le_value (drop 8 raw)).
Proof.
  intros Hlen. unfold spec_fast_hash.
  rewrite <- (take_drop 8 raw) at 1. rewrite xor_lanes_app.
  assert (Ht : len (take 8 raw) <= 8) by (unfold len; rewrite length_take; lia).
  assert (Hd : len (drop 8 raw) <= 8) by (unfold len in *; rewrite length_drop; lia).
  rewrite (xor_lanes_le_value (take 8 raw) 0 0) by (change (256 ^ 0) with 1; lia).
  change (256 ^ 0) with 1. rewrite !Z.add_0_l, Z.mul_1_l.
  destruct (drop 8 raw) as [ | y ys] eqn:Ey.
  - simpl. rewrite Z.lxor_0_r. reflexivity.
  - assert (H8 : len (take 8 raw) = 8).
    { unfold len in *. rewrite length_take.
      assert (length (drop 8 raw) <> 0)%nat by (rewrite Ey; discriminate).
      rewrite length_drop in H. lia. }
    rewrite ?H8. rewrite xor_lanes_acc.
    change (xor_lanes 8 (y :: ys) 0) with (xor_lanes (0 + 8) (y :: ys) 0).
    rewrite (xor_lanes_next8 (y :: ys) 0 0).
    rewrite (xor_lanes_le_value (y :: ys) 0 0) by (change (256 ^ 0) with 1; lia).
    change (256 ^ 0) with 1. rewrite ?Z.add_0_l, ?Z.mul_1_l. reflexivity.
Qed.

Lemma NewEndpoint_FastHash (typ : EndpointType) (raw : list byte) :
  len raw <= 16 ->
  exists e, NewEndpoint typ raw = Returned e /\
            Endpoint.FastHash e = Returned (spec_fast_hash raw).
Proof.
  intros Hlen. destruct (NewEndpoint_returns typ raw Hlen) as [He Hr].
  pose proof (NewEndpoint_wf _ _ _ He) as Hwf.
  eexists. split; [exact He | ].
  rewrite (Endpoint_FastHash_spec _ Hwf).
  rewrite (Raw_wf _ Hwf) in Hr. do 2 f_equal. congruence.
Qed.

(** X9. The hash of an address of at most 8 bytes is the number the address
    spells, least significant byte first; for 9 to 16 bytes it is the XOR of
    the number spelt by the first eight bytes and the number spelt by the
    rest. *)
Theorem Endpoint_FastHash_value (typ : EndpointType) (raw : list byte) :
  len raw <= 16 ->
  exists e, NewEndpoint typ raw = Returned e /\
            Endpoint.FastHash e =
              Returned (Z.lxor (le_value (take 8 raw)) (le_value (drop 8 raw))) /\
            (len raw <= 8 -> Endpoint.FastHash e = Returned (le_value raw)).
Proof.
  intros Hlen. destruct (NewEndpoint_FastHash typ raw Hlen) as (e & He & Hh).
  exists e. split; [exact He | ].
  rewrite Hh, spec_fast_hash_halves by exact Hlen.
  split; [reflexivity | ].
  intros H8. rewrite take_ge, drop_ge by (unfold len in H8; lia).
  simpl. rewrite Z.lxor_0_r. reflexivity.
Qed.

Lemma Endpoint_FastHash_value_witness :
  exists e, NewEndpoint 2 [x0a; x00; x00; x01] = Returned e /\
            Endpoint.FastHash e =
              Returned (Z.lxor (le_value (take 8 [x0a; x00; x00; x01]))
                          (le_value (drop 8 [x0a; x00; x00; x01]))) /\
            (len [x0a; x00; x00; x01] <= 8 ->
             Endpoint.FastHash e = Returned (le_value [x0a; x00; x00; x01])).
Proof.
  apply (Endpoint_FastHash_value 2 [x0a; x00; x00; x01]). vm_compute. discriminate.
Defined.

(** X10. The hash sees neither the type nor a trailing zero byte: an address
    and the same address with a zero byte appended hash alike, whatever the
    two endpoint types. *)
Theorem Endpoint_FastHash_trailing_zero (t t' : EndpointType) (raw : list byte) :
  len raw < 16 ->
  exists a b, NewEndpoint t (raw ++ [x00]) = Returned a /\
              NewEndpoint t' raw = Returned b /\
              Endpoint.FastHash a = Endpoint.FastHash b.
Proof.
  intros Hlen.
  assert (Hlen' : len (raw ++ [x00]) <= 16).
  { unfold len in *. rewrite length_app. simpl. lia. }
  destruct (NewEndpoint_FastHash t (raw ++ [x00]) Hlen') as (a & Ha & Hha).
  destruct (NewEndpoint_FastHash t' raw ltac:(lia)) as (b & Hb & Hhb).
  exists a, b. split; [exact Ha | ]. split; [exact Hb | ].
  rewrite Hha, Hhb. f_equal. unfold spec_fast_hash.
  rewrite xor_lanes_app. simpl.
  change (u8 x00) with 0. rewrite Z.shiftl_0_l, Z.lxor_0_r. reflexivity.
Qed.

Lemma Endpoint_FastHash_trailing_zero_witness :
  exists a b, NewEndpoint 1 ([x0a; x01] ++ [x00]) = Returned a /\
              NewEndpoint 2 [x0a; x01] = Returned b /\
              Endpoint.FastHash a = Endpoint.FastHash b.
Proof.
  apply (Endpoint_FastHash_trailing_zero 1 2 [x0a; x01]). vm_compute. reflexivity.
Defined.

(** ** The registry of endpoint types *)

Section RegistryProperties.

Variable Itoa : Z -> string.
Variable Sprintf_typ_raw : string -> list byte -> string.

(** X11. Registering a number that is free returns that number as the new
    type, whose [String()] is from then on the registered name; the names of
    all other types stay what they were. *)
Theorem RegisterEndpointType_String (num : Z) (meta : EndpointTypeMetadata)
    (endpointTypes : registry) :
  endpointTypes !! num = None ->
  exists endpointTypes',
    RegisterEndpointType num meta endpointTypes = Returned (num, endpointTypes') /\
    EndpointType_String Itoa endpointTypes' num = Name meta /\
    (forall e, e <> num ->
       EndpointType_String Itoa endpointTypes' e = EndpointType_String Itoa endpointTypes e).
Proof.
  intros Hfree. unfold RegisterEndpointType. cbv zeta. unfold EndpointType in *.
  rewrite Hfree.
  eexists. split; [reflexivity | ]. unfold EndpointType_String. split.
  - rewrite lookup_insert_eq. reflexivity.
  - intros e Hne. rewrite lookup_insert_ne by congruence. reflexivity.
Qed.

(** X12. A number is registered at most once: [RegisterEndpointType] panics
    exactly when the number is in use, so a second registration of a number
    panics whatever the metadata; a registration that succeeds leaves every
    earlier entry as it was. *)
Theorem RegisterEndpointType_once (num : Z) (meta : EndpointTypeMetadata)
    (endpointTypes : registry) :
  (RegisterEndpointType num meta endpointTypes =
     Panicked "Endpoint type number already in use"%string <->
   is_Some (endpointTypes !! num)) /\
  (forall t endpointTypes',
     RegisterEndpointType num meta endpointTypes = Returned (t, endpointTypes') ->
     (forall meta', RegisterEndpointType num meta' endpointTypes' =
                    Panicked "Endpoint type number already in use"%string) /\
     (forall e m, endpointTypes !! e = Some m -> endpointTypes' !! e = Some m)).
Proof.
  unfold RegisterEndpointType. cbv zeta. unfold EndpointType in *. split.
  - destruct (endpointTypes !! num) as [m | ] eqn:E.
    + split; [intros _; eexists; reflexivity | reflexivity].
    + split; [discriminate | intros [m Hm]; discriminate].
  - intros t reg' H. destruct (endpointTypes !! num) as [m | ] eqn:E; [discriminate | ].
    inversion H; subst t reg'; clear H. split.
    + intros meta'. rewrite lookup_insert_eq. reflexivity.
    + intros e m Hm. rewrite lookup_insert_ne; [exact Hm | ].
      intros ->. rewrite E in Hm. discriminate.
Qed.

(** X13. [String()] of an endpoint made by [NewEndpoint]: a registered
    formatter is applied to exactly the bytes the endpoint was made of;
    without one (type not registered, or registered with a nil formatter)
    the generic rendering is given the type's name and the whole 16-byte
    array, zero padding included. *)
Theorem Endpoint_String_NewEndpoint (endpointTypes : registry) (typ : EndpointType)
    (raw : list byte) :
  len raw <= 16 ->
  exists e,
    NewEndpoint typ raw = Returned e /\
    Endpoint_String Itoa Sprintf_typ_raw endpointTypes e =
    Returned
      match endpointTypes !! typ with
      | Some {| Formatter := Some format |} => format raw
      | _ => Sprintf_typ_raw (EndpointType_String Itoa endpointTypes typ)
               (raw ++ replicate (16 - length raw) x00)
      end.
Proof.
  intros Hlen. destruct (NewEndpoint_returns typ raw Hlen) as [He Hr].
  eexists. split; [exact He | ].
  unfold Endpoint_String. unfold Endpoint.Raw in Hr. simpl in *.
  rewrite copy_zero_array in * by (unfold MaxEndpointSize; lia).
  destruct (endpointTypes !! typ) as [[name [format | ]] | ]; try reflexivity.
  rewrite Hr. reflexivity.
Qed.

End RegistryProperties.

Lemma RegisterEndpointType_String_witness :
  exists endpointTypes',
    RegisterEndpointType 1000 (mkEndpointTypeMetadata "mine" None) ∅ =
      Returned (1000, endpointTypes') /\
    EndpointType_String (fun _ => EmptyString) endpointTypes' 1000 =
      Name (mkEndpointTypeMetadata "mine" None) /\
    (forall e, e <> 1000 ->
       EndpointType_String (fun _ => EmptyString) endpointTypes' e =
       EndpointType_String (fun _ => EmptyString) ∅ e).
Proof.
  apply (RegisterEndpointType_String (fun _ => EmptyString) 1000
           (mkEndpointTypeMetadata "mine" None) ∅).
  reflexivity.
Defined.

Lemma RegisterEndpointType_once_witness :
  (forall meta', RegisterEndpointType 0 meta' {[ 0 := mkEndpointTypeMetadata "invalid" None ]} =
                 Panicked "Endpoint type number already in use"%string) /\
  (forall e m, (∅ : registry) !! e = Some m ->
               ({[ 0 := mkEndpointTypeMetadata "invalid" None ]} : registry) !! e = Some m).
Proof.
  apply (proj2 (RegisterEndpointType_once 0 (mkEndpointTypeMetadata "invalid" None) ∅)
           0 {[ 0 := mkEndpointTypeMetadata "invalid" None ]}).
  reflexivity.
Defined.

Lemma Endpoint_String_NewEndpoint_witness :
  exists e,
    NewEndpoint 0 [x0a; x01] = Returned e /\
    Endpoint_String (fun _ => EmptyString) (fun _ _ => EmptyString)
      {[ 0 := mkEndpointTypeMetadata "invalid" (Some (fun _ => "bytes"%string)) ]} e =
    Returned
      match ({[ 0 := mkEndpointTypeMetadata "invalid" (Some (fun _ => "bytes"%string)) ]}
               : registry) !! 0 with
      | Some {| Formatter := Some format |} => format [x0a; x01]
      | _ => (fun _ _ => EmptyString)
               (EndpointType_String (fun _ => EmptyString)
                  {[ 0 := mkEndpointTypeMetadata "invalid" (Some (fun _ => "bytes"%string)) ]} 0)
               ([x0a; x01] ++ replicate (16 - length [x0a; x01]) x00)
      end.
Proof.
  apply (Endpoint_String_NewEndpoint (fun _ => EmptyString) (fun _ _ => EmptyString)
           {[ 0 := mkEndpointTypeMetadata "invalid" (Some (fun _ => "bytes"%string)) ]}
           0 [x0a; x01]).
  vm_compute. discriminate.
Defined.

(** * Further properties of layers/icmp6msg.go *)

(** ** Option blocks and their wire form *)

Lemma u8_length_byte (o : ICMPv6Option) :
  option_within_bounds o -> u8 (length_byte o) * 8 = Length o.
Proof.
  intros (Hrange & Hmod & _). unfold length_byte.
  assert (Hq : Length o = 8 * (Length o / 8)) by (apply Z.div_exact; lia).
  destruct (Byte.of_N (Z.to_N (Length o / 8))) as [b | ] eqn:E.
  - apply Byte.to_of_N in E. unfold u8. rewrite E. rewrite Z2N.id by lia. lia.
  - apply Byte.of_N_None_iff in E. lia.
Qed.

Lemma length_byte_decoded (ty lb : byte) (d : list byte) :
  length_byte (mkICMPv6Option ty (u8 lb * 8) d) = lb.
Proof.
  unfold length_byte. simpl. rewrite Z.div_mul by lia.
  unfold u8. rewrite N2Z.id. rewrite Byte.of_to_N. reflexivity.
Qed.

Lemma len_app (x y : list byte) : len (x ++ y) = len x + len y.
Proof. unfold len. rewrite length_app. lia. Qed.

Lemma len_option_bytes (o : ICMPv6Option) :
  option_within_bounds o -> len (option_bytes o) = Length o.
Proof.
  intros (_ & _ & Hd). unfold option_bytes. rewrite !len_cons. lia.
Qed.

(** One option in wire form at the head of the buffer is decoded and the
    loop goes on behind it. *)
Lemma DecodeFromBytes_option_bytes (i : ICMPv6Options) (o : ICMPv6Option)
    (rest : list byte) (df : DecodeFeedback) :
  option_within_bounds o ->
  DecodeFromBytes i (option_bytes o ++ rest) df = DecodeFromBytes (i ++ [o]) rest df.
Proof.
  intros Ho. pose proof (u8_length_byte o Ho) as HL.
  pose proof (len_option_bytes o Ho) as Hlen.
  pose proof Ho as (Hrange & _ & Hd). pose proof (len_nonneg rest) as Hr.
  change (option_bytes o ++ rest) with (Type_ o :: length_byte o :: Data o ++ rest).
  rewrite DecodeFromBytes_header. rewrite HL.
  match goal with
  | |- context [len ?d <? _] =>
      assert (Hall : len d = Length o + len rest) by (rewrite !len_cons, len_app; lia);
      destruct (Z.ltb_spec (len d) (Length o)); [lia | ]
  end.
  rewrite slice_ok by lia.
  replace (Z.to_nat 2) with 2%nat by reflexivity. cbn [drop]. rewrite ?drop_0.
  rewrite take_app_length' by (unfold len in Hd; lia).
  replace (Z.to_nat (Length o)) with (S (S (length (Data o)))) by (unfold len in Hd; lia).
  cbn [drop]. rewrite ?drop_0. rewrite drop_app_length.
  destruct o as [ty L d]. reflexivity.
Qed.

(** X14. Decoding undoes the wire form: a block made of options, each with a
    length that is a multiple of 8 between 8 and 2040 and data filling it,
    decodes without error to exactly these options, appended to the
    receiver, and leaves the feedback untouched. *)
Theorem DecodeFromBytes_options_bytes (os i : ICMPv6Options) (df : DecodeFeedback) :
  Forall option_within_bounds os ->
  DecodeFromBytes i (options_bytes os) df = Some (Returned tt, i ++ os, df).
Proof.
  intros Hall. revert i. induction Hall as [ | o os Ho Hos IH]; intros i.
  - rewrite app_nil_r. reflexivity.
  - change (options_bytes (o :: os)) with (option_bytes o ++ options_bytes os).
    rewrite DecodeFromBytes_option_bytes by exact Ho.
    rewrite IH, <- app_assoc. reflexivity.
Qed.

Lemma DecodeFromBytes_options_bytes_witness :
  DecodeFromBytes []
    (options_bytes [mkICMPv6Option x01 8 [x00; x11; x22; x33; x44; x55]])
    {| truncated := false |} =
  Some (Returned tt, [] ++ [mkICMPv6Option x01 8 [x00; x11; x22; x33; x44; x55]],
        {| truncated := false |}).
Proof.
  apply (DecodeFromBytes_options_bytes
           [mkICMPv6Option x01 8 [x00; x11; x22; x33; x44; x55]] []
           {| truncated := false |}).
  repeat constructor; vm_compute; discriminate || reflexivity.
Defined.

(** X15. Whatever the outcome, the options a call has appended are the
    buffer read back: the buffer starts with their wire form; after a normal
    return it is their wire form. *)
Theorem DecodeFromBytes_reads_wire_form (data : list byte) (i i' : ICMPv6Options)
    (df df' : DecodeFeedback) (r : outcome unit) :
  DecodeFromBytes i data df = Some (r, i', df') ->
  exists new rest,
    i' = i ++ new /\ data = options_bytes new ++ rest /\
    (r = Returned tt -> rest = []).
Proof.
  remember (length data) as n eqn:Hn.
  assert (Hle : (length data <= n)%nat) by lia. clear Hn.
  revert data i Hle. induction n as [ | n IH]; intros data i Hle Hdec.
  - destruct data; [ | simpl in Hle; lia].
    inversion Hdec; subst. exists [], []. rewrite app_nil_r. repeat split.
  - destruct data as [ | ty [ | lb rest]].
    + inversion Hdec; subst. exists [], []. rewrite app_nil_r. repeat split.
    + inversion Hdec; subst. exists [], [ty]. rewrite app_nil_r.
      repeat split. discriminate.
    + rewrite DecodeFromBytes_header in Hdec.
      destruct (len (ty :: lb :: rest) <? u8 lb * 8) eqn:EL.
      * inversion Hdec; subst. exists [], (ty :: lb :: rest). rewrite app_nil_r.
        repeat split. discriminate.
      * destruct (slice_cases (ty :: lb :: rest) 2 (u8 lb * 8)) as [[d Hd] | Hp].
        -- rewrite Hd in Hdec.
           apply slice_inv in Hd as (_ & H2 & HL & Hd).
           apply IH in Hdec as (new & tl & Hi' & Hdata & Hret);
             [ | rewrite length_drop; simpl length in *; lia].
           exists (mkICMPv6Option ty (u8 lb * 8) d :: new), tl.
           split; [rewrite Hi', <- app_assoc; reflexivity | ].
           split; [ | exact Hret].
           change (options_bytes (mkICMPv6Option ty (u8 lb * 8) d :: new))
             with (option_bytes (mkICMPv6Option ty (u8 lb * 8) d) ++ options_bytes new).
           rewrite <- app_assoc, <- Hdata.
           unfold option_bytes. rewrite length_byte_decoded. simpl Type_. simpl Data.
           cbn [app]. do 2 f_equal. subst d.
           replace (Z.to_nat 2) with 2%nat by reflexivity. cbn [drop]. rewrite ?drop_0.
           replace (Z.to_nat (u8 lb * 8)) with (S (S (Z.to_nat (u8 lb * 8 - 2)))) by lia.
           cbn [drop]. rewrite ?drop_0. rewrite take_drop. reflexivity.
        -- rewrite Hp in Hdec. inversion Hdec; subst.
           exists [], (ty :: lb :: rest). rewrite app_nil_r. repeat split. discriminate.
Qed.

Lemma DecodeFromBytes_reads_wire_form_witness :
  exists new rest,
    [mkICMPv6Option x01 8 [x00; x11; x22; x33; x44; x55]] = [] ++ new /\
    [x01; x01; x00; x11; x22; x33; x44; x55; x05] = options_bytes new ++ rest /\
    (Failed ErrICMPv6OptionHeader = Returned tt -> rest = []).
Proof.
  apply (DecodeFromBytes_reads_wire_form
           [x01; x01; x00; x11; x22; x33; x44; x55; x05] []
           [mkICMPv6Option x01 8 [x00; x11; x22; x33; x44; x55]]
           {| truncated := false |} {| truncated := true |}
           (Failed ErrICMPv6OptionHeader)).
  reflexivity.
Defined.

(** ** Truncated blocks, errors and the receiver *)

(** X16. Cutting a well-formed option block short never makes the decoder
    panic.  On the first [k] bytes of the wire form of options within bounds
    it appends the options that fit entirely, in order, and then either
    returns normally with the feedback untouched (the cut falls between two
    options) or returns an error after calling [SetTruncated]. *)
Theorem DecodeFromBytes_truncated_block (os i : ICMPv6Options) (k : nat)
    (df : DecodeFeedback) :
  Forall option_within_bounds os ->
  exists r m df',
    DecodeFromBytes i (take k (options_bytes os)) df = Some (r, i ++ take m os, df') /\
    ((r = Returned tt /\ df' = df) \/
     (exists e, r = Failed e /\ df' = SetTruncated df)).
Proof.
  intros Hall. revert i k. induction Hall as [ | o os Ho Hos IH]; intros i k.
  - exists (Returned tt), 0%nat, df.
    change (options_bytes []) with (@nil byte). rewrite !take_nil, app_nil_r.
    split; [reflexivity | left; split; reflexivity].
  - change (options_bytes (o :: os)) with (option_bytes o ++ options_bytes os).
    pose proof (len_option_bytes o Ho) as Hlen.
    pose proof (u8_length_byte o Ho) as HL.
    pose proof Ho as (Hrange & _ & Hd).
    destruct (Nat.le_gt_cases (length (option_bytes o)) k) as [Hge | Hlt].
    + rewrite take_app.
      rewrite take_ge by exact Hge.
      rewrite DecodeFromBytes_option_bytes by exact Ho.
      destruct (IH (i ++ [o]) (k - length (option_bytes o))%nat)
        as (r & m & df' & Hdec & Hout).
      exists r, (S m), df'. split; [ | exact Hout].
      rewrite Hdec. cbn [take]. rewrite <- app_assoc. reflexivity.
    + rewrite take_app_le by lia.
      exists (match k with O => Returned tt
                      | 1%nat => Failed ErrICMPv6OptionHeader
                      | _ => Failed (ErrICMPv6OptionLength (Z.of_nat k) (Length o))
              end),
             0%nat,
             (match k with O => df | _ => SetTruncated df end).
      cbn [take]. rewrite app_nil_r.
      destruct k as [ | [ | k]].
      * split; [reflexivity | left; split; reflexivity].
      * split; [reflexivity | right; eexists; split; reflexivity].
      * split; [ | right; eexists; split; reflexivity].
        unfold option_bytes in *. cbn [take].
        rewrite DecodeFromBytes_header. rewrite HL.
        match goal with
        | |- context [len ?d <? _] =>
            assert (Hk : len d = Z.of_nat (S (S k)));
            [ unfold len in *; simpl length in *; rewrite length_take; lia | ];
            rewrite Hk;
            destruct (Z.ltb_spec (Z.of_nat (S (S k))) (Length o));
            [reflexivity | unfold len in *; simpl length in *; lia]
        end.
Qed.

Lemma DecodeFromBytes_truncated_block_witness :
  exists r m df',
    DecodeFromBytes []
      (take 5 (options_bytes [mkICMPv6Option x01 8 [x00; x11; x22; x33; x44; x55]]))
      {| truncated := false |} =
    Some (r, [] ++ take m [mkICMPv6Option x01 8 [x00; x11; x22; x33; x44; x55]], df') /\
    ((r = Returned tt /\ df' = {| truncated := false |}) \/
     (exists e, r = Failed e /\ df' = SetTruncated {| truncated := false |})).
Proof.
  apply (DecodeFromBytes_truncated_block
           [mkICMPv6Option x01 8 [x00; x11; x22; x33; x44; x55]] [] 5
           {| truncated := false |}).
  repeat constructor; vm_compute; discriminate || reflexivity.
Defined.

(** X17. The options already in the receiver are kept and do not influence
    the decoding: a call on any receiver gives the outcome, the feedback and
    the new options of a call on an empty receiver, appended to what was
    there. *)
Theorem DecodeFromBytes_receiver (data : list byte) (i new : ICMPv6Options)
    (df df' : DecodeFeedback) (r : outcome unit) :
  DecodeFromBytes [] data df = Some (r, new, df') ->
  DecodeFromBytes i data df = Some (r, i ++ new, df').
Proof.
  remember (length data) as n eqn:Hn.
  assert (Hle : (length data <= n)%nat) by lia. clear Hn.
  revert data i new r df' Hle.
  induction n as [ | n IH]; intros data i new r df' Hle Hdec.
  - destruct data; [ | simpl in Hle; lia].
    inversion Hdec; subst. rewrite app_nil_r. reflexivity.
  - destruct data as [ | ty [ | lb rest]].
    + inversion Hdec; subst. rewrite app_nil_r. reflexivity.
    + inversion Hdec; subst. rewrite app_nil_r. reflexivity.
    + rewrite DecodeFromBytes_header in Hdec |- *.
      destruct (len (ty :: lb :: rest) <? u8 lb * 8) eqn:EL.
      * inversion Hdec; subst. rewrite app_nil_r. reflexivity.
      * destruct (slice_cases (ty :: lb :: rest) 2 (u8 lb * 8)) as [[d Hd] | Hp].
        -- rewrite Hd in Hdec |- *.
           apply slice_inv in Hd as (_ & H2 & HL & Hd).
           assert (Hshort : (length (drop (Z.to_nat (u8 lb * 8)) (ty :: lb :: rest)) <= n)%nat)
             by (rewrite length_drop; simpl length in *; lia).
           destruct (DecodeFromBytes_total []
                       (drop (Z.to_nat (u8 lb * 8)) (ty :: lb :: rest)) df)
             as [[[r0 new0] df0] H0].
           pose proof (IH _ ([] ++ [mkICMPv6Option ty (u8 lb * 8) d]) _ _ _ Hshort H0) as H1.
           rewrite H1 in Hdec. inversion Hdec; subst r new df'; clear Hdec.
           rewrite (IH _ (i ++ [mkICMPv6Option ty (u8 lb * 8) d]) _ _ _ Hshort H0).
           rewrite <- !app_assoc. reflexivity.
        -- rewrite Hp in Hdec |- *. inversion Hdec; subst.
           rewrite app_nil_r. reflexivity.
Qed.

Lemma DecodeFromBytes_receiver_witness :
  DecodeFromBytes [mkICMPv6Option x05 8 [x00; x00; x00; x00; x05; xdc]]
    [x01; x01; x00; x11; x22; x33; x44; x55] {| truncated := false |} =
  Some (Returned tt,
        [mkICMPv6Option x05 8 [x00; x00; x00; x00; x05; xdc]] ++
        [mkICMPv6Option x01 8 [x00; x11; x22; x33; x44; x55]],
        {| truncated := false |}).
Proof.
  apply (DecodeFromBytes_receiver [x01; x01; x00; x11; x22; x33; x44; x55]
           [mkICMPv6Option x05 8 [x00; x00; x00; x00; x05; xdc]]
           [mkICMPv6Option x01 8 [x00; x11; x22; x33; x44; x55]]
           {| truncated := false |} {| truncated := false |} (Returned tt)).
  reflexivity.
Defined.

(** X18. An error return and the truncation flag go together: starting from
    a clear flag, the call returns an error exactly when it leaves the flag
    set; a normal return and a panic leave it clear. *)
Theorem DecodeFromBytes_error_iff_truncated (data : list byte) (i i' : ICMPv6Options)
    (df df' : DecodeFeedback) (r : outcome unit) :
  truncated df = false ->
  DecodeFromBytes i data df = Some (r, i', df') ->
  ((exists e, r = Failed e) <-> truncated df' = true).
Proof.
  intros Hclear Hdec.
  destruct (DecodeFromBytes_appended _ _ _ _ _ _ _ (Nat.le_refl _) Hdec)
    as (new & _ & _ & _ & Hret & Herr & Hpan).
  destruct r as [[] | e | msg].
  - destruct (Hret eq_refl) as [_ ->]. rewrite Hclear.
    split; [intros [e He]; discriminate | discriminate].
  - rewrite (Herr e eq_refl). simpl. split; [reflexivity | intros _; eexists; reflexivity].
  - destruct (Hpan msg eq_refl) as [_ ->]. rewrite Hclear.
    split; [intros [e He]; discriminate | discriminate].
Qed.

Lemma DecodeFromBytes_error_iff_truncated_witness :
  (exists e, @Failed unit (ErrICMPv6OptionLength 4 16) = Failed e) <->
  truncated {| truncated := true |} = true.
Proof.
  apply (DecodeFromBytes_error_iff_truncated [x01; x02; xaa; xbb] [] []
           {| truncated := false |} {| truncated := true |}
           (Failed (ErrICMPv6OptionLength 4 16))); reflexivity.
Defined.

(** X19. A call never removes or changes what the receiver held: the
    receiver afterwards is the old one with the new options appended.  An
    option takes at least 8 bytes, so at most one option is appended per 8
    bytes of buffer. *)
Theorem DecodeFromBytes_option_count (data : list byte) (i i' : ICMPv6Options)
    (df df' : DecodeFeedback) (r : outcome unit) :
  DecodeFromBytes i data df = Some (r, i', df') ->
  exists new,
    i' = i ++ new /\
    8 * Z.of_nat (length new) <= len data.
Proof.
  intros Hdec.
  destruct (DecodeFromBytes_appended _ _ _ _ _ _ _ (Nat.le_refl _) Hdec)
    as (new & -> & Hall & Htot & _).
  exists new. split; [reflexivity | ].
  assert (Hsum : 8 * Z.of_nat (length new) <= total_Length new).
  { clear Htot Hdec. induction Hall as [ | o os (Ho & _) _ IH]; [simpl; lia | ].
    unfold total_Length in *. simpl length. simpl foldr. lia. }
  lia.
Qed.

Lemma DecodeFromBytes_option_count_witness :
  exists new,
    [mkICMPv6Option x05 8 [x00; x00; x00; x00; x05; xdc];
     mkICMPv6Option x01 8 [x00; x11; x22; x33; x44; x55]] =
    [mkICMPv6Option x05 8 [x00; x00; x00; x00; x05; xdc]] ++ new /\
    8 * Z.of_nat (length new) <= len [x01; x01; x00; x11; x22; x33; x44; x55].
Proof.
  apply (DecodeFromBytes_option_count [x01; x01; x00; x11; x22; x33; x44; x55]
           [mkICMPv6Option x05 8 [x00; x00; x00; x00; x05; xdc]]
           [mkICMPv6Option x05 8 [x00; x00; x00; x00; x05; xdc];
            mkICMPv6Option x01 8 [x00; x11; x22; x33; x44; x55]]
           {| truncated := false |} {| truncated := false |} (Returned tt)).
  reflexivity.
Defined.

(** ** The five message layers *)

Lemma lor_shiftl_above (k acc x : Z) :
  0 <= k -> 0 <= acc < 2 ^ k -> Z.lor acc (Z.shiftl x k) = acc + x * 2 ^ k.
Proof.
  intros Hk Hacc. rewrite <- lxor_shiftl_above by assumption.
  symmetry. apply Z.lxor_lor.
  apply Z.bits_inj'. intros n Hn.
  rewrite Z.land_spec, Z.bits_0.
  destruct (Z.lt_ge_cases n k) as [Hlt | Hge].
  - rewrite Z.shiftl_spec_low by exact Hlt. apply andb_false_r.
  - rewrite <- (Z.mod_small acc (2 ^ k)) by exact Hacc.
    rewrite Z.mod_pow2_bits_high by lia. reflexivity.
Qed.

Lemma BigEndian_Uint16_value (a b : byte) :
  BigEndian_Uint16 [a; b] = Returned (256 * u8 a + u8 b).
Proof.
  change (BigEndian_Uint16 [a; b]) with (Returned (Z.lor (u8 b) (Z.shiftl (u8 a) 8))).
  pose proof (u8_range a). pose proof (u8_range b).
  rewrite lor_shiftl_above by (change (2 ^ 8) with 256; lia).
  change (2 ^ 8) with 256. f_equal. lia.
Qed.

Lemma BigEndian_Uint32_value (a b c d : byte) :
  BigEndian_Uint32 [a; b; c; d] =
  Returned (16777216 * u8 a + 65536 * u8 b + 256 * u8 c + u8 d).
Proof.
  change (BigEndian_Uint32 [a; b; c; d])
    with (Returned (Z.lor (Z.lor (Z.lor (u8 d) (Z.shiftl (u8 c) 8)) (Z.shiftl (u8 b) 16))
                      (Z.shiftl (u8 a) 24))).
  pose proof (u8_range a). pose proof (u8_range b).
  pose proof (u8_range c). pose proof (u8_range d).
  rewrite (lor_shiftl_above 8) by (change (2 ^ 8) with 256; lia).
  change (2 ^ 8) with 256.
  rewrite (lor_shiftl_above 16) by (change (2 ^ 16) with 65536; lia).
  change (2 ^ 16) with 65536.
  rewrite (lor_shiftl_above 24) by (change (2 ^ 24) with 16777216; lia).
  change (2 ^ 24) with 16777216. f_equal. lia.
Qed.

Lemma decode_Options_empty {L : Type} (store : ICMPv6Options -> L) (data : list byte)
    (df : DecodeFeedback) :
  exists r options df',
    DecodeFromBytes [] data df = Some (r, options, df') /\
    decode_Options store [] data df = Some (layer_result_of r, store options, df').
Proof.
  destruct (DecodeFromBytes_total [] data df) as [[[r options] df'] Hdec].
  exists r, options, df'. split; [exact Hdec | ].
  unfold decode_Options. rewrite Hdec. reflexivity.
Qed.

(** Rewrites the next slice of the buffer, which lies within it. *)
Local Ltac slice_within :=
  match goal with
  | |- context [slice ?d ?lo (len ?d)] => rewrite (slice_suffix d lo) by lia
  | |- context [slice ?d ?lo ?hi] => rewrite (slice_ok d lo hi) by lia
  end; cbn [evaluate bind].

(** X20. Router solicitation.  On fewer than 4 bytes the call sets the
    truncation flag, returns its length error and leaves the layer as it
    was.  On 4 bytes or more its own part cannot fail: the options the layer
    held are dropped and the layer ends up with exactly the options decoded
    from the bytes after the fourth, with the outcome and feedback of that
    decoding. *)
Theorem RouterSolicitation_DecodeFromBytes_spec (i : ICMPv6RouterSolicitation)
    (data : list byte) (df : DecodeFeedback) :
  (len data < 4 ->
     RouterSolicitation_DecodeFromBytes i data df =
     Some (LayerTooShort "ICMP layer less then 4 bytes for ICMPv6 router solicitation"%string,
           i, SetTruncated df)) /\
  (4 <= len data ->
     exists r options df',
       DecodeFromBytes [] (drop 4 data) df = Some (r, options, df') /\
       RouterSolicitation_DecodeFromBytes i data df =
       Some (layer_result_of r, mkICMPv6RouterSolicitation options, df')).
Proof.
  unfold RouterSolicitation_DecodeFromBytes. split; intros Hlen.
  - destruct (Z.ltb_spec (len data) 4); [reflexivity | lia].
  - destruct (Z.ltb_spec (len data) 4); [lia | ].
    slice_within. apply decode_Options_empty.
Qed.

Lemma RouterSolicitation_DecodeFromBytes_spec_witness :
  RouterSolicitation_DecodeFromBytes (mkICMPv6RouterSolicitation []) [x00; x00; x00]
    {| truncated := false |} =
  Some (LayerTooShort "ICMP layer less then 4 bytes for ICMPv6 router solicitation"%string,
        mkICMPv6RouterSolicitation [], SetTruncated {| truncated := false |}).
Proof.
  apply (proj1 (RouterSolicitation_DecodeFromBytes_spec
                  (mkICMPv6RouterSolicitation []) [x00; x00; x00] {| truncated := false |})).
  vm_compute. reflexivity.
Defined.

(** X21. Router advertisement.  On fewer than 12 bytes the call sets the
    truncation flag, returns its length error and leaves the layer as it
    was.  On 12 bytes or more its own part cannot fail and every field is
    overwritten: hop limit and flags are bytes 0 and 1, the router lifetime
    is the big-endian number of bytes 2-3, the reachable time that of bytes
    4-7, the retransmission timer that of bytes 8-11, and the options are
    exactly those decoded from the bytes after the twelfth. *)
Theorem RouterAdvertisement_DecodeFromBytes_spec (i : ICMPv6RouterAdvertisement)
    (data : list byte) (df : DecodeFeedback) :
  (len data < 12 ->
     RouterAdvertisement_DecodeFromBytes i data df =
     Some (LayerTooShort "ICMP layer less then 12 bytes for ICMPv6 router advertisement"%string,
           i, SetTruncated df)) /\
  (forall b0 b1 b2 b3 b4 b5 b6 b7 b8 b9 b10 b11 rest,
     data = b0 :: b1 :: b2 :: b3 :: b4 :: b5 :: b6 :: b7 :: b8 :: b9 :: b10 :: b11 :: rest ->
     exists r options df',
       DecodeFromBytes [] rest df = Some (r, options, df') /\
       RouterAdvertisement_DecodeFromBytes i data df =
       Some (layer_result_of r,
             mkICMPv6RouterAdvertisement b0 b1
               (256 * u8 b2 + u8 b3)
               (16777216 * u8 b4 + 65536 * u8 b5 + 256 * u8 b6 + u8 b7)
               (16777216 * u8 b8 + 65536 * u8 b9 + 256 * u8 b10 + u8 b11)
               options,
             df')).
Proof.
  unfold RouterAdvertisement_DecodeFromBytes. split.
  - intros Hlen. destruct (Z.ltb_spec (len data) 12); [reflexivity | lia].
  - intros b0 b1 b2 b3 b4 b5 b6 b7 b8 b9 b10 b11 rest ->.
    set (data := b0 :: b1 :: b2 :: b3 :: b4 :: b5 :: b6 :: b7 :: b8 :: b9 :: b10 :: b11 :: rest).
    assert (Hlen : len data = len rest + 12) by (unfold data; rewrite !len_cons; lia).
    pose proof (len_nonneg rest) as Hrest.
    destruct (Z.ltb_spec (len data) 12); [lia | ].
    rewrite (index_ok data 0 b0) by (reflexivity || lia).
    rewrite (index_ok data 1 b1) by (reflexivity || lia).
    cbn [evaluate].
    rewrite (slice_ok data 2 4), (slice_ok data 4 8), (slice_ok data 8 12) by lia.
    change (take (Z.to_nat (4 - 2)) (drop (Z.to_nat 2) data)) with [b2; b3].
    change (take (Z.to_nat (8 - 4)) (drop (Z.to_nat 4) data)) with [b4; b5; b6; b7].
    change (take (Z.to_nat (12 - 8)) (drop (Z.to_nat 8) data)) with [b8; b9; b10; b11].
    cbn [bind]. rewrite BigEndian_Uint16_value, !BigEndian_Uint32_value.
    cbn [evaluate].
    rewrite (slice_suffix data 12) by lia. cbn [evaluate].
    change (drop (Z.to_nat 12) data) with rest.
    apply decode_Options_empty.
Qed.

Lemma RouterAdvertisement_DecodeFromBytes_spec_witness :
  exists r options df',
    DecodeFromBytes [] [] {| truncated := false |} = Some (r, options, df') /\
    RouterAdvertisement_DecodeFromBytes
      (mkICMPv6RouterAdvertisement x00 x00 0 0 0 [])
      [x40; x80; x07; x08; x00; x00; x00; x00; x00; x00; x03; xe8]
      {| truncated := false |} =
    Some (layer_result_of r,
          mkICMPv6RouterAdvertisement x40 x80
            (256 * u8 x07 + u8 x08)
            (16777216 * u8 x00 + 65536 * u8 x00 + 256 * u8 x00 + u8 x00)
            (16777216 * u8 x00 + 65536 * u8 x00 + 256 * u8 x03 + u8 xe8)
            options,
          df').
Proof.
  apply (proj2 (RouterAdvertisement_DecodeFromBytes_spec
                  (mkICMPv6RouterAdvertisement x00 x00 0 0 0 [])
                  [x40; x80; x07; x08; x00; x00; x00; x00; x00; x00; x03; xe8]
                  {| truncated := false |})
           x40 x80 x07 x08 x00 x00 x00 x00 x00 x00 x03 xe8 []).
  reflexivity.
Defined.

(** X22. Neighbor solicitation.  On fewer than 20 bytes: truncation flag,
    length error, layer unchanged.  On 20 bytes or more its own part cannot
    fail: the target address is bytes 4 to 19 and the options are exactly
    those decoded from the bytes after the twentieth. *)
Theorem NeighborSolicitation_DecodeFromBytes_spec (i : ICMPv6NeighborSolicitation)
    (data : list byte) (df : DecodeFeedback) :
  (len data < 20 ->
     NeighborSolicitation_DecodeFromBytes i data df =
     Some (LayerTooShort "ICMP layer less then 20 bytes for ICMPv6 neighbor solicitation"%string,
           i, SetTruncated df)) /\
  (20 <= len data ->
     exists r options df',
       DecodeFromBytes [] (drop 20 data) df = Some (r, options, df') /\
       NeighborSolicitation_DecodeFromBytes i data df =
       Some (layer_result_of r,
             mkICMPv6NeighborSolicitation (take 16 (drop 4 data)) options, df')).
Proof.
  unfold NeighborSolicitation_DecodeFromBytes. split; intros Hlen.
  - destruct (Z.ltb_spec (len data) 20); [reflexivity | lia].
  - destruct (Z.ltb_spec (len data) 20); [lia | ].
    rewrite (slice_ok data 4 20) by lia. cbn [evaluate].
    slice_within. apply (decode_Options_empty (mkICMPv6NeighborSolicitation _)).
Qed.

Lemma NeighborSolicitation_DecodeFromBytes_spec_witness :
  NeighborSolicitation_DecodeFromBytes (mkICMPv6NeighborSolicitation [] [])
    (replicate 19 x00) {| truncated := false |} =
  Some (LayerTooShort "ICMP layer less then 20 bytes for ICMPv6 neighbor solicitation"%string,
        mkICMPv6NeighborSolicitation [] [], SetTruncated {| truncated := false |}).
Proof.
  apply (proj1 (NeighborSolicitation_DecodeFromBytes_spec
                  (mkICMPv6NeighborSolicitation [] []) (replicate 19 x00)
                  {| truncated := false |})).
  vm_compute. reflexivity.
Defined.

(** X23. Neighbor advertisement.  On fewer than 20 bytes: truncation flag,
    length error, layer unchanged.  On 20 bytes or more its own part cannot
    fail: the flags are byte 0, the target address is bytes 4 to 19 and the
    options are exactly those decoded from the bytes after the twentieth. *)
Theorem NeighborAdvertisement_DecodeFromBytes_spec (i : ICMPv6NeighborAdvertisement)
    (data : list byte) (df : DecodeFeedback) :
  (len data < 20 ->
     NeighborAdvertisement_DecodeFromBytes i data df =
     Some (LayerTooShort "ICMP layer less then 20 bytes for ICMPv6 neighbor advertisement"%string,
           i, SetTruncated df)) /\
  (20 <= len data ->
     exists b0 r options df',
       data !! 0%nat = Some b0 /\
       DecodeFromBytes [] (drop 20 data) df = Some (r, options, df') /\
       NeighborAdvertisement_DecodeFromBytes i data df =
       Some (layer_result_of r,
             mkICMPv6NeighborAdvertisement b0 (take 16 (drop 4 data)) options, df')).
Proof.
  unfold NeighborAdvertisement_DecodeFromBytes. split; intros Hlen.
  - destruct (Z.ltb_spec (len data) 20); [reflexivity | lia].
  - destruct (Z.ltb_spec (len data) 20); [lia | ].
    destruct data as [ | b0 data0]; [unfold len in Hlen; simpl in Hlen; lia | ].
    exists b0.
    rewrite (index_ok (b0 :: data0) 0 b0) by (reflexivity || lia). cbn [evaluate].
    rewrite (slice_ok (b0 :: data0) 4 20) by lia. cbn [evaluate].
    slice_within.
    destruct (decode_Options_empty
                (mkICMPv6NeighborAdvertisement b0
                   (take (Z.to_nat (20 - 4)) (drop (Z.to_nat 4) (b0 :: data0))))
                (drop (Z.to_nat 20) (b0 :: data0)) df)
      as (r & options & df' & Hdec & Hlayer).
    exists r, options, df'. split; [reflexivity | ]. split; [exact Hdec | exact Hlayer].
Qed.

Lemma NeighborAdvertisement_DecodeFromBytes_spec_witness :
  NeighborAdvertisement_DecodeFromBytes (mkICMPv6NeighborAdvertisement x00 [] [])
    (replicate 19 x00) {| truncated := false |} =
  Some (LayerTooShort "ICMP layer less then 20 bytes for ICMPv6 neighbor advertisement"%string,
        mkICMPv6NeighborAdvertisement x00 [] [], SetTruncated {| truncated := false |}).
Proof.
  apply (proj1 (NeighborAdvertisement_DecodeFromBytes_spec
                  (mkICMPv6NeighborAdvertisement x00 [] []) (replicate 19 x00)
                  {| truncated := false |})).
  vm_compute. reflexivity.
Defined.

(** X24. Redirect.  On fewer than 36 bytes: truncation flag, length error,
    layer unchanged.  On 36 bytes or more its own part cannot fail: the
    target address is bytes 4 to 19, the destination address bytes 20 to 35,
    and the options are exactly those decoded from the bytes after them. *)
Theorem Redirect_DecodeFromBytes_spec (i : ICMPv6Redirect)
    (data : list byte) (df : DecodeFeedback) :
  (len data < 36 ->
     Redirect_DecodeFromBytes i data df =
     Some (LayerTooShort "ICMP layer less then 36 bytes for ICMPv6 redirect"%string,
           i, SetTruncated df)) /\
  (36 <= len data ->
     exists r options df',
       DecodeFromBytes [] (drop 36 data) df = Some (r, options, df') /\
       Redirect_DecodeFromBytes i data df =
       Some (layer_result_of r,
             mkICMPv6Redirect (take 16 (drop 4 data)) (take 16 (drop 20 data)) options,
             df')).
Proof.
  unfold Redirect_DecodeFromBytes. split; intros Hlen.
  - destruct (Z.ltb_spec (len data) 36); [reflexivity | lia].
  - destruct (Z.ltb_spec (len data) 36); [lia | ].
    rewrite (slice_ok data 4 20) by lia. cbn [evaluate].
    rewrite (slice_ok data 20 36) by lia. cbn [evaluate].
    slice_within. apply (decode_Options_empty (mkICMPv6Redirect _ _)).
Qed.

Lemma Redirect_DecodeFromBytes_spec_witness :
  Redirect_DecodeFromBytes (mkICMPv6Redirect [] [] [])
    (replicate 35 x00) {| truncated := false |} =
  Some (LayerTooShort "ICMP layer less then 36 bytes for ICMPv6 redirect"%string,
        mkICMPv6Redirect [] [] [], SetTruncated {| truncated := false |}).
Proof.
  apply (proj1 (Redirect_DecodeFromBytes_spec
                  (mkICMPv6Redirect [] [] []) (replicate 35 x00)
                  {| truncated := false |})).
  vm_compute. reflexivity.
Defined.

(** X25. The accessors of a neighbor advertisement report bits 7, 6 and 5 of
    the flags byte: router, solicited, override. *)
Theorem NeighborAdvertisement_flag_bits (i : ICMPv6NeighborAdvertisement) :
  Router i = Z.testbit (u8 (NA_Flags i)) 7 /\
  Solicited i = Z.testbit (u8 (NA_Flags i)) 6 /\
  Override i = Z.testbit (u8 (NA_Flags i)) 5.
Proof.
  unfold Router, Solicited, Override.
  destruct (NA_Flags i); repeat split; reflexivity.
Qed.

Lemma layer_result_of_flag (data : list byte) (options : ICMPv6Options)
    (df df' : DecodeFeedback) (r : outcome unit) :
  truncated df = false ->
  DecodeFromBytes [] data df = Some (r, options, df') ->
  is_error (layer_result_of r) = truncated df'.
Proof.
  intros Hclear Hdec.
  destruct (DecodeFromBytes_appended _ _ _ _ _ _ _ (Nat.le_refl _) Hdec)
    as (new & _ & _ & _ & Hret & Herr & Hpan).
  destruct r as [[] | e | msg]; simpl.
  - destruct (Hret eq_refl) as [_ ->]. symmetry. exact Hclear.
  - rewrite (Herr e eq_refl). reflexivity.
  - destruct (Hpan msg eq_refl) as [_ ->]. symmetry. exact Hclear.
Qed.

(** X26. For each of the five layers an error return and the truncation flag
    go together: starting from a clear flag, [DecodeFromBytes] returns an
    error (its own length error or the option decoder's) exactly when it
    leaves the flag set. *)
Theorem layers_error_iff_truncated (data : list byte) (df df' : DecodeFeedback)
    (r : layer_result) :
  truncated df = false ->
  (forall i i', RouterSolicitation_DecodeFromBytes i data df = Some (r, i', df') ->
                is_error r = truncated df') /\
  (forall i i', RouterAdvertisement_DecodeFromBytes i data df = Some (r, i', df') ->
                is_error r = truncated df') /\
  (forall i i', NeighborSolicitation_DecodeFromBytes i data df = Some (r, i', df') ->
                is_error r = truncated df') /\
  (forall i i', NeighborAdvertisement_DecodeFromBytes i data df = Some (r, i', df') ->
                is_error r = truncated df') /\
  (forall i i', Redirect_DecodeFromBytes i data df = Some (r, i', df') ->
                is_error r = truncated df').
Proof.
  intros Hclear. repeat split; intros i i' Hdec.
  - unfold RouterSolicitation_DecodeFromBytes in Hdec.
    destruct (len data <? 4) eqn:Hge; [inversion Hdec; reflexivity | ].
    apply Z.ltb_ge in Hge.
    rewrite (slice_suffix data 4) in Hdec by lia. cbn [evaluate] in Hdec.
    unfold decode_Options in Hdec.
    match type of Hdec with
    | context [DecodeFromBytes ?o ?d df] =>
        destruct (DecodeFromBytes o d df) as [[[r0 o0] df0] | ] eqn:E; [ | discriminate]
    end.
    inversion Hdec; subst. eapply layer_result_of_flag; eassumption.
  - unfold RouterAdvertisement_DecodeFromBytes in Hdec.
    destruct (len data <? 12) eqn:Hge; [inversion Hdec; reflexivity | ].
    apply Z.ltb_ge in Hge.
    destruct data as [ | b0 [ | b1 [ | b2 [ | b3 [ | b4 [ | b5 [ | b6 [ | b7 [ | b8
                     [ | b9 [ | b10 [ | b11 rest]]]]]]]]]]]];
      try (unfold len in *; simpl length in *; lia).
    set (data := b0 :: b1 :: b2 :: b3 :: b4 :: b5 :: b6 :: b7 :: b8 :: b9 :: b10 :: b11 :: rest)
      in *.
    rewrite (index_ok data 0 b0) in Hdec by (reflexivity || lia).
    rewrite (index_ok data 1 b1) in Hdec by (reflexivity || lia).
    cbn [evaluate] in Hdec.
    rewrite (slice_ok data 2 4), (slice_ok data 4 8), (slice_ok data 8 12) in Hdec by lia.
    change (take (Z.to_nat (4 - 2)) (drop (Z.to_nat 2) data)) with [b2; b3] in Hdec.
    change (take (Z.to_nat (8 - 4)) (drop (Z.to_nat 4) data)) with [b4; b5; b6; b7] in Hdec.
    change (take (Z.to_nat (12 - 8)) (drop (Z.to_nat 8) data)) with [b8; b9; b10; b11] in Hdec.
    cbn [bind] in Hdec.
    rewrite BigEndian_Uint16_value, !BigEndian_Uint32_value in Hdec.
    cbn [evaluate] in Hdec.
    rewrite (slice_suffix data 12) in Hdec by lia. cbn [evaluate] in Hdec.
    unfold decode_Options in Hdec.
    match type of Hdec with
    | context [DecodeFromBytes ?o ?d df] =>
        destruct (DecodeFromBytes o d df) as [[[r0 o0] df0] | ] eqn:E; [ | discriminate]
    end.
    inversion Hdec; subst. eapply layer_result_of_flag; eassumption.
  - unfold NeighborSolicitation_DecodeFromBytes in Hdec.
    destruct (len data <? 20) eqn:Hge; [inversion Hdec; reflexivity | ].
    apply Z.ltb_ge in Hge.
    rewrite (slice_ok data 4 20) in Hdec by lia. cbn [evaluate] in Hdec.
    rewrite (slice_suffix data 20) in Hdec by lia. cbn [evaluate] in Hdec.
    unfold decode_Options in Hdec.
    match type of Hdec with
    | context [DecodeFromBytes ?o ?d df] =>
        destruct (DecodeFromBytes o d df) as [[[r0 o0] df0] | ] eqn:E; [ | discriminate]
    end.
    inversion Hdec; subst. eapply layer_result_of_flag; eassumption.
  - unfold NeighborAdvertisement_DecodeFromBytes in Hdec.
    destruct (len data <? 20) eqn:Hge; [inversion Hdec; reflexivity | ].
    apply Z.ltb_ge in Hge.
    destruct data as [ | b0 data0]; [unfold len in *; simpl length in *; lia | ].
    rewrite (index_ok (b0 :: data0) 0 b0) in Hdec by (reflexivity || lia).
    cbn [evaluate] in Hdec.
    rewrite (slice_ok (b0 :: data0) 4 20) in Hdec by lia. cbn [evaluate] in Hdec.
    rewrite (slice_suffix (b0 :: data0) 20) in Hdec by lia. cbn [evaluate] in Hdec.
    unfold decode_Options in Hdec.
    match type of Hdec with
    | context [DecodeFromBytes ?o ?d df] =>
        destruct (DecodeFromBytes o d df) as [[[r0 o0] df0] | ] eqn:E; [ | discriminate]
    end.
    inversion Hdec; subst. eapply layer_result_of_flag; eassumption.
  - unfold Redirect_DecodeFromBytes in Hdec.
    destruct (len data <? 36) eqn:Hge; [inversion Hdec; reflexivity | ].
    apply Z.ltb_ge in Hge.
    rewrite (slice_ok data 4 20) in Hdec by lia. cbn [evaluate] in Hdec.
    rewrite (slice_ok data 20 36) in Hdec by lia. cbn [evaluate] in Hdec.
    rewrite (slice_suffix data 36) in Hdec by lia. cbn [evaluate] in Hdec.
    unfold decode_Options in Hdec.
    match type of Hdec with
    | context [DecodeFromBytes ?o ?d df] =>
        destruct (DecodeFromBytes o d df) as [[[r0 o0] df0] | ] eqn:E; [ | discriminate]
    end.
    inversion Hdec; subst. eapply layer_result_of_flag; eassumption.
Qed.

Lemma layers_error_iff_truncated_witness :
  is_error (LayerTooShort "ICMP layer less then 4 bytes for ICMPv6 router solicitation"%string)
  = truncated (SetTruncated {| truncated := false |}).
Proof.
  apply (proj1 (layers_error_iff_truncated [x00; x00; x00] {| truncated := false |}
                  (SetTruncated {| truncated := false |})
                  (LayerTooShort
                     "ICMP layer less then 4 bytes for ICMPv6 router solicitation"%string)
                  eq_refl)
           (mkICMPv6RouterSolicitation []) (mkICMPv6RouterSolicitation [])).
  reflexivity.
Defined.
